(** * NeuroVision AI: the biometric signal pipeline and the session scoring

    A shallow embedding of [src/services/aiEngine.ts] (frame sources,
    smoothing, blink edge detector, scheduler loop) and of
    [src/components/RehabExercise.tsx] (session state, scoring ticks,
    clinical analysis), followed by the properties of the specification.

    JavaScript numbers are modelled as exact real numbers: the rounding of
    binary64 arithmetic is not part of that model.  Where the source
    divides by a quantity that can be zero (the clinical analysis), the
    result is an extended number [jsnum] with the infinities and NaN, as
    in ECMAScript.  The two rounded quotients of the clinical analysis are
    also evaluated in binary64 itself (module [Binary64]), which settles
    what the report shows when a quotient lies halfway between two
    integers; the properties of the rounded values over the exact model
    leave that choice open. *)

From Stdlib Require Import Reals Zfloor Lra Lia ZArith List String Bool.
From Stdlib Require Import Ascii Decimal DecimalString DecimalZ.
From Stdlib Require Floats Uint63.
Import ListNotations.
Open Scope R_scope.

(** ** ECMAScript numeric primitives used by the sources *)

Module JS.

(** [a < b] and [a > b] as the booleans the source branches on. *)
Definition ltb (a b : R) : bool := if Rlt_dec a b then true else false.
Definition gtb (a b : R) : bool := ltb b a.

(** [Math.floor], and [Math.round]: the nearest integer, ties rounded
    towards plus infinity. *)
Definition Math_floor (x : R) : R := IZR (Zfloor x).
Definition Math_round (x : R) : R := IZR (Zfloor (x + / 2)).

Definition Math_min : R -> R -> R := Rmin.
Definition Math_max : R -> R -> R := Rmax.
Definition Math_abs : R -> R := Rabs.

(** The remainder operator [x % y] for a non-zero divisor: the quotient is
    truncated towards zero, so the result has the sign of [x]. *)
Definition trunc (x : R) : Z := if Rle_dec 0 x then Zfloor x else Zceil x.
Definition rem (x y : R) : R := x - y * IZR (trunc (x / y)).

(** Numbers that may come out of a division by zero. *)
Inductive jsnum : Type :=
| Fin (r : R)
| PInf
| NInf
| NaN.

(** [x / y] on finite operands. *)
Definition div (x y : R) : jsnum :=
  if Req_dec_T y 0 then
    (if Rlt_dec 0 x then PInf else if Rlt_dec x 0 then NInf else NaN)
  else Fin (x / y).

(** [v * k] for a finite, strictly positive constant [k]. *)
Definition scale (v : jsnum) (k : R) : jsnum :=
  match v with
  | Fin r => Fin (r * k)
  | other => other
  end.

Definition round (v : jsnum) : jsnum :=
  match v with
  | Fin r => Fin (Math_round r)
  | other => other
  end.

(** [Math.min(k, v)] for a finite [k]: NaN is contagious. *)
Definition min_with (k : R) (v : jsnum) : jsnum :=
  match v with
  | Fin r => Fin (Rmin k r)
  | PInf => Fin k
  | NInf => NInf
  | NaN => NaN
  end.

(** [v || d]: zero and NaN are falsy. *)
Definition or_else (v : jsnum) (d : jsnum) : jsnum :=
  match v with
  | Fin r => if Req_dec_T r 0 then d else v
  | NaN => d
  | other => other
  end.

(** [v < k] for a finite [k]. *)
Definition lt_const (v : jsnum) (k : R) : bool :=
  match v with
  | Fin r => ltb r k
  | NInf => true
  | PInf | NaN => false
  end.

Definition gt_const (v : jsnum) (k : R) : bool :=
  match v with
  | Fin r => gtb r k
  | PInf => true
  | NInf | NaN => false
  end.

End JS.

(** ** Shared types ([types.ts]) *)

Inductive RehabMode : Type := DEMO | REAL.

Inductive DemoProfile : Type := HEALTHY | LOW | HIGH.

Record Point : Type := mkPoint { x : R; y : R }.

Record EyeLandmarks : Type := mkEye {
  pupil : Point;
  upperLid : Point;
  lowerLid : Point;
  innerCorner : Point;
  outerCorner : Point
}.

Record FaceData : Type := mkFace {
  yaw : R;
  pitch : R;
  roll : R;
  eyeOpennessLeft : R;
  eyeOpennessRight : R;
  mouthSymmetry : R;
  gazeX : R;
  gazeY : R;
  blinkDetected : bool;
  confidence : R;
  leftEye : option EyeLandmarks;
  rightEye : option EyeLandmarks
}.

Inductive Status : Type := GOOD | WARNING | CRITICAL.

Record SessionAnalysis : Type := mkAnalysis {
  sa_exerciseType : string;
  sa_duration : Z;
  sa_score : Z;
  clinicalValue : JS.jsnum;
  clinicalUnit : string;
  status : Status;
  recommendation : string;
  notes : list string
}.

(** ** The tracking engine ([services/aiEngine.ts]) *)

Module AiEngine.

Definition DEFAULT_FACE_DATA : FaceData :=
  {| yaw := 0; pitch := 0; roll := 0;
     eyeOpennessLeft := 0.9; eyeOpennessRight := 0.9;
     mouthSymmetry := 0.95;
     gazeX := 0; gazeY := 0;
     blinkDetected := false;
     confidence := 0;
     leftEye := None; rightEye := None |}.

Definition POSE_SMOOTHING : R := 0.5.
Definition LANDMARK_SMOOTHING : R := 0.6.

Definition lerp (start finish factor : R) : R :=
  start + (finish - start) * factor.

Definition lerpPoint (start finish : Point) (factor : R) : Point :=
  {| x := lerp (x start) (x finish) factor;
     y := lerp (y start) (y finish) factor |}.

Definition smoothEye (prev : option EyeLandmarks) (curr : EyeLandmarks)
    (factor : R) : EyeLandmarks :=
  match prev with
  | None => curr
  | Some p =>
      {| pupil := lerpPoint (pupil p) (pupil curr) factor;
         upperLid := lerpPoint (upperLid p) (upperLid curr) factor;
         lowerLid := lerpPoint (lowerLid p) (lowerLid curr) factor;
         innerCorner := lerpPoint (innerCorner p) (innerCorner curr) factor;
         outerCorner := lerpPoint (outerCorner p) (outerCorner curr) factor |}
  end.

(** *** Simulation *)

(** The values [Math.random()] returns during one call of [simulateData]:
    two for the gaze jitter (drawn only when the profile has jitter) and
    one for the random blink. *)
Record Draws : Type := mkDraws {
  jitterDrawX : R;
  jitterDrawY : R;
  blinkDraw : R
}.

Definition headStabilityMult (demoProfile : DemoProfile) : R :=
  match demoProfile with LOW => 4 | HIGH => 0.2 | HEALTHY => 1 end.

Definition blinkRateMult (demoProfile : DemoProfile) : R :=
  match demoProfile with LOW => 0.15 | HIGH => 6 | HEALTHY => 1 end.

Definition gazeJitter (demoProfile : DemoProfile) : R :=
  match demoProfile with LOW => 0.15 | HIGH => 0.02 | HEALTHY => 0 end.

Definition asymmetry (demoProfile : DemoProfile) : R :=
  match demoProfile with LOW => 0.2 | HIGH => 0 | HEALTHY => 0 end.

Definition SACCADE_INTERVAL (demoProfile : DemoProfile) : R :=
  match demoProfile with HIGH => 800 | _ => 1800 end.

Definition simulateData (demoProfile : DemoProfile) (rnd : Draws)
    (time : R) : FaceData :=
  let headStabilityMult := headStabilityMult demoProfile in
  let blinkRateMult := blinkRateMult demoProfile in
  let gazeJitter := gazeJitter demoProfile in
  let asymmetry := asymmetry demoProfile in
  (* 1. head pose *)
  let yawBase := sin (time / 4000) * 8 * headStabilityMult in
  let yawMicro := sin (time / 900) * 1.5 * headStabilityMult in
  let yaw := yawBase + yawMicro in
  let pitchBase := (cos (time / 5000) * 4 + 2) * headStabilityMult in
  let pitchMicro := sin (time / 1200) * 1 * headStabilityMult in
  let pitch := pitchBase + pitchMicro in
  let roll :=
    (sin (time / 6000) * 2 + cos (time / 1500) * 0.5) * headStabilityMult in
  (* 2. saccadic gaze *)
  let SACCADE_INTERVAL := SACCADE_INTERVAL demoProfile in
  let seed := JS.Math_floor (time / SACCADE_INTERVAL) in
  let targetX := sin (seed * 123.45) * 0.5 in
  let targetY := cos (seed * 678.90) * 0.3 in
  let prevTargetX := sin ((seed - 1) * 123.45) * 0.5 in
  let prevTargetY := cos ((seed - 1) * 678.90) * 0.3 in
  let progress := JS.Math_min 1 (JS.rem time SACCADE_INTERVAL / 250) in
  let ease := 1 - (1 - progress) ^ 3 in
  let scanX0 := prevTargetX + (targetX - prevTargetX) * ease in
  let scanY0 := prevTargetY + (targetY - prevTargetY) * ease in
  let scanX :=
    if JS.gtb gazeJitter 0
    then scanX0 + (jitterDrawX rnd - 0.5) * gazeJitter else scanX0 in
  let scanY :=
    if JS.gtb gazeJitter 0
    then scanY0 + (jitterDrawY rnd - 0.5) * gazeJitter else scanY0 in
  (* vestibulo-ocular compensation *)
  let vorX := - (yaw / 35) in
  let vorY := - (pitch / 35) in
  let gazeX := scanX + vorX in
  let gazeY := scanY + vorY in
  (* 3. blink dynamics *)
  let isSaccading := JS.ltb progress 0.5 in
  let blinkProb := (if isSaccading then 0.005 else 0.001) * blinkRateMult in
  let blinkCycleLen := 3500 / blinkRateMult in
  let blinkCycle := JS.rem time blinkCycleLen / blinkCycleLen in
  let isForcedBlink := JS.gtb blinkCycle 0.96 in
  let isRandomBlink := JS.ltb (blinkDraw rnd) blinkProb in
  let isBlinking := isForcedBlink || isRandomBlink in
  (* 4. eyelid physics *)
  let openness :=
    if isBlinking then 0.02
    else
      let gazeEffect := JS.Math_max 0 (gazeY * 0.2) in
      let pitchEffect := JS.Math_max 0 (pitch * 0.01) in
      let tremor := sin (time / 50) * 0.005 in
      JS.Math_max 0.1 (0.94 - gazeEffect - pitchEffect + tremor) in
  let opennessLeft := openness in
  let opennessRight := openness * (1 - asymmetry) in
  (* 5. landmark projection *)
  let headXShift := yaw * 0.005 in
  let headYShift := pitch * 0.005 in
  let irisXShift := gazeX * 0.08 in
  let irisYShift := gazeY * 0.08 in
  let lidTrackY := irisYShift * 0.5 in
  let blinkOffset := (1 - openness) * 0.035 in
  let simLeftEye :=
    {| pupil := mkPoint (0.4 + headXShift + irisXShift)
                        (0.45 + headYShift + irisYShift);
       upperLid := mkPoint (0.4 + headXShift)
                           (0.42 + headYShift + lidTrackY + blinkOffset);
       lowerLid := mkPoint (0.4 + headXShift)
                           (0.48 + headYShift + blinkOffset * 0.2);
       innerCorner := mkPoint (0.46 + headXShift) (0.45 + headYShift);
       outerCorner := mkPoint (0.34 + headXShift) (0.45 + headYShift) |} in
  let simRightEye :=
    {| pupil := mkPoint (0.6 + headXShift + irisXShift)
                        (0.45 + headYShift + irisYShift);
       upperLid := mkPoint (0.6 + headXShift)
                           (0.42 + headYShift + lidTrackY + blinkOffset
                            + asymmetry * 0.02);
       lowerLid := mkPoint (0.6 + headXShift)
                           (0.48 + headYShift + blinkOffset * 0.2);
       innerCorner := mkPoint (0.54 + headXShift) (0.45 + headYShift);
       outerCorner := mkPoint (0.66 + headXShift) (0.45 + headYShift) |} in
  {| yaw := yaw;
     pitch := pitch;
     roll := roll;
     eyeOpennessLeft := opennessLeft;
     eyeOpennessRight := opennessRight;
     mouthSymmetry := 0.95 - asymmetry;
     gazeX := gazeX;
     gazeY := gazeY;
     blinkDetected := isBlinking;
     confidence := 0.98;
     leftEye := Some simLeftEye;
     rightEye := Some simRightEye |}.

(** *** Real computer vision *)

(** One face mesh of the landmarker: the point at each landmark index.
    The model is created with iris tracking, so every index the source
    reads (up to 473) is present; the mesh is a total map. *)
Definition FaceMesh : Type := nat -> Point.

Record Category : Type := mkCategory {
  categoryName : string;
  score : R
}.

(** What [detectForVideo] returns: [faceLandmarks], one mesh per face,
    and [faceBlendshapes], one category list per face, possibly absent. *)
Record Results : Type := mkResults {
  faceLandmarks : list FaceMesh;
  faceBlendshapes : option (list (list Category))
}.

(** The call either throws or returns. *)
Inductive Inference : Type :=
| Throws
| Returns (results : Results).

Record Video : Type := mkVideo {
  readyState : Z;
  currentTime : R
}.

(** What [processFrame] reads from outside at one tick: whether the
    module-level [faceLandmarker] is set, the video element behind
    [videoRef], and the outcome of the detector on the current image. *)
Record Camera : Type := mkCamera {
  faceLandmarker : bool;
  videoRef : option Video;
  detectForVideo : Inference
}.

(** [results.faceBlendshapes?.[0]?.categories] *)
Definition categories (results : Results) : option (list Category) :=
  match faceBlendshapes results with
  | Some (first :: _) => Some first
  | _ => None
  end.

(** [blendshapes?.find(c => c.categoryName === name)?.score || 0] *)
Definition blendshapeScore (blendshapes : option (list Category))
    (name : string) : R :=
  match blendshapes with
  | None => 0
  | Some cs =>
      match find (fun c => String.eqb (categoryName c) name) cs with
      | Some c => score c
      | None => 0
      end
  end.

(** The raw measurements [processFrame] takes from one mesh. *)
Definition rawYaw (landmarks : FaceMesh) : R :=
  let nose := landmarks 1%nat in
  let leftCheek := landmarks 234%nat in
  let rightCheek := landmarks 454%nat in
  let midPointX := (x rightCheek + x leftCheek) / 2 in
  (x nose - midPointX) * 200.

Definition rawPitch (landmarks : FaceMesh) : R :=
  let nose := landmarks 1%nat in
  let eyesMidY := (y (landmarks 159%nat) + y (landmarks 386%nat)) / 2 in
  (y nose - eyesMidY - 0.1) * 200.

(** [(nose.x - 0.5) * 2] and [(nose.y - 0.5) * 2] *)
Definition rawGazeX (landmarks : FaceMesh) : R :=
  (x (landmarks 1%nat) - 0.5) * 2.

Definition rawGazeY (landmarks : FaceMesh) : R :=
  (y (landmarks 1%nat) - 0.5) * 2.

Definition pointAt (landmarks : FaceMesh) (i : nat) : Point :=
  {| x := x (landmarks i); y := y (landmarks i) |}.

Definition rawLeftEye (landmarks : FaceMesh) : EyeLandmarks :=
  {| pupil := pointAt landmarks 468;
     upperLid := pointAt landmarks 159;
     lowerLid := pointAt landmarks 145;
     innerCorner := pointAt landmarks 133;
     outerCorner := pointAt landmarks 33 |}.

Definition rawRightEye (landmarks : FaceMesh) : EyeLandmarks :=
  {| pupil := pointAt landmarks 473;
     upperLid := pointAt landmarks 386;
     lowerLid := pointAt landmarks 374;
     innerCorner := pointAt landmarks 362;
     outerCorner := pointAt landmarks 263 |}.

(** The blink decision: strong, or subtle and symmetric. *)
Definition isBlinking (blinkLeftScore blinkRightScore : R) : bool :=
  let avgBlinkScore := (blinkLeftScore + blinkRightScore) / 2 in
  let eyeDiff := JS.Math_abs (blinkLeftScore - blinkRightScore) in
  let isStrongBlink := JS.gtb avgBlinkScore 0.5 in
  let isSubtleBlink :=
    JS.gtb avgBlinkScore 0.2 && JS.ltb eyeDiff 0.2
    && JS.gtb blinkLeftScore 0.1 && JS.gtb blinkRightScore 0.1 in
  isStrongBlink || isSubtleBlink.

(** The branch of [processFrame] taken when a face is found: the
    smoothed frame built from the previous frame and the raw values. *)
Definition faceFound (prev : FaceData) (landmarks : FaceMesh)
    (blendshapes : option (list Category)) : FaceData :=
  let blinkLeftScore := blendshapeScore blendshapes "eyeBlinkLeft" in
  let blinkRightScore := blendshapeScore blendshapes "eyeBlinkRight" in
  {| yaw := lerp (yaw prev) (rawYaw landmarks) POSE_SMOOTHING;
     pitch := lerp (pitch prev) (rawPitch landmarks) POSE_SMOOTHING;
     roll := 0;
     eyeOpennessLeft := 1 - blinkLeftScore;
     eyeOpennessRight := 1 - blinkRightScore;
     mouthSymmetry := 0.95;
     gazeX := lerp (gazeX prev) (rawGazeX landmarks) POSE_SMOOTHING;
     gazeY := lerp (gazeY prev) (rawGazeY landmarks) POSE_SMOOTHING;
     blinkDetected := isBlinking blinkLeftScore blinkRightScore;
     confidence := 0.99;
     leftEye :=
       Some (smoothEye (leftEye prev) (rawLeftEye landmarks)
               LANDMARK_SMOOTHING);
     rightEye :=
       Some (smoothEye (rightEye prev) (rawRightEye landmarks)
               LANDMARK_SMOOTHING) |}.

Definition with_confidence (f : FaceData) (c : R) : FaceData :=
  {| yaw := yaw f; pitch := pitch f; roll := roll f;
     eyeOpennessLeft := eyeOpennessLeft f;
     eyeOpennessRight := eyeOpennessRight f;
     mouthSymmetry := mouthSymmetry f;
     gazeX := gazeX f; gazeY := gazeY f;
     blinkDetected := blinkDetected f;
     confidence := c;
     leftEye := leftEye f; rightEye := rightEye f |}.

Definition with_blinkDetected (f : FaceData) (b : bool) : FaceData :=
  {| yaw := yaw f; pitch := pitch f; roll := roll f;
     eyeOpennessLeft := eyeOpennessLeft f;
     eyeOpennessRight := eyeOpennessRight f;
     mouthSymmetry := mouthSymmetry f;
     gazeX := gazeX f; gazeY := gazeY f;
     blinkDetected := b;
     confidence := confidence f;
     leftEye := leftEye f; rightEye := rightEye f |}.

(** The refs of the hook and its two pieces of published state. *)
Record Tracker : Type := mkTracker {
  faceData : FaceData;
  blinkCount : Z;
  lastBlinkState : bool;
  lastVideoTime : R;
  lastProcessTimeRef : R;
  prevDataRef : FaceData
}.

Definition initialTracker : Tracker :=
  {| faceData := DEFAULT_FACE_DATA;
     blinkCount := 0;
     lastBlinkState := false;
     lastVideoTime := -1;
     lastProcessTimeRef := 0;
     prevDataRef := DEFAULT_FACE_DATA |}.

Definition set_lastVideoTime (t : Tracker) (v : R) : Tracker :=
  {| faceData := faceData t; blinkCount := blinkCount t;
     lastBlinkState := lastBlinkState t;
     lastVideoTime := v;
     lastProcessTimeRef := lastProcessTimeRef t;
     prevDataRef := prevDataRef t |}.

Definition set_lastProcessTime (t : Tracker) (v : R) : Tracker :=
  {| faceData := faceData t; blinkCount := blinkCount t;
     lastBlinkState := lastBlinkState t;
     lastVideoTime := lastVideoTime t;
     lastProcessTimeRef := v;
     prevDataRef := prevDataRef t |}.

Definition setBlinkCount (t : Tracker) (n : Z) : Tracker :=
  {| faceData := faceData t; blinkCount := n;
     lastBlinkState := lastBlinkState t;
     lastVideoTime := lastVideoTime t;
     lastProcessTimeRef := lastProcessTimeRef t;
     prevDataRef := prevDataRef t |}.

(** [processFrame]: the frame it returns and the refs it leaves (only
    [lastVideoTime] is written). *)
Definition processFrame (cam : Camera) (t : Tracker) : FaceData * Tracker :=
  match faceLandmarker cam, videoRef cam with
  | true, Some video =>
      if (readyState video <? 2)%Z
      then (with_confidence (prevDataRef t) 0, t)
      else if Req_dec_T (currentTime video) (lastVideoTime t)
      then (prevDataRef t, t)
      else
        let t' := set_lastVideoTime t (currentTime video) in
        match detectForVideo cam with
        | Throws => (prevDataRef t', t')
        | Returns results =>
            match faceLandmarks results with
            | landmarks :: _ =>
                (faceFound (prevDataRef t') landmarks (categories results),
                 t')
            | [] =>
                (with_blinkDetected
                   (with_confidence (prevDataRef t') 0.3) false, t')
            end
        end
  | _, _ => (with_confidence (prevDataRef t) 0, t)
  end.

(** The tail of [loop], from the write of [prevDataRef] on: the frame is
    delivered to the blink edge detector and published. *)
Definition deliver (t : Tracker) (data : FaceData) : Tracker :=
  {| faceData := data;
     blinkCount :=
       if blinkDetected data && negb (lastBlinkState t)
       then (blinkCount t + 1)%Z else blinkCount t;
     lastBlinkState := blinkDetected data;
     lastVideoTime := lastVideoTime t;
     lastProcessTimeRef := lastProcessTimeRef t;
     prevDataRef := data |}.

(** One animation tick of [loop] at timestamp [time]. *)
Definition loop (mode : RehabMode) (demoProfile : DemoProfile)
    (cam : Camera) (rnd : Draws) (time : R) (t : Tracker) : Tracker :=
  let throttled :=
    match mode with
    | REAL => JS.ltb (time - lastProcessTimeRef t) 32
    | DEMO => false
    end in
  if throttled then t
  else
    let t1 := set_lastProcessTime t time in
    match mode with
    | REAL => let (data, t2) := processFrame cam t1 in deliver t2 data
    | DEMO => deliver t1 (simulateData demoProfile rnd time)
    end.

End AiEngine.

(** ** The exercise session ([components/RehabExercise.tsx]) *)

Module RehabExercise.

Import AiEngine.
Local Open Scope string_scope.

Inductive ExerciseType : Type := FOLLOW_DOT | BLINK_TRAINING | HEAD_STABILITY.

Record Props : Type := mkProps {
  mode : RehabMode;
  exerciseType : ExerciseType;
  durationSeconds : Z;
  demoProfile : DemoProfile
}.

Record Target : Type := mkTarget {
  target_x : R;
  target_y : R;
  visible : bool
}.

(** The state of the component, the state of its tracker hook included. *)
Record State : Type := mkState {
  isPlaying : bool;
  isFinished : bool;
  timeLeft : Z;
  score : Z;
  sessionBlinks : Z;
  headStabilityScore : R;
  demoState : DemoProfile;
  target : Target;
  targetMoveTimer : Z;
  tracker : Tracker
}.

Definition initialState (props : Props) : State :=
  {| isPlaying := false;
     isFinished := false;
     timeLeft := durationSeconds props;
     score := 0;
     sessionBlinks := 0;
     headStabilityScore := 100;
     demoState := demoProfile props;
     target := mkTarget 50 50 true;
     targetMoveTimer := 0;
     tracker := initialTracker |}.

Inductive Phase : Type := Idle | Playing | Finished.

Definition phase (s : State) : Phase :=
  if isFinished s then Finished
  else if isPlaying s then Playing else Idle.

(** The effect that mirrors the tracker's blink count while playing. *)
Definition syncBlinks (s : State) : State :=
  if isPlaying s then
    {| isPlaying := isPlaying s; isFinished := isFinished s;
       timeLeft := timeLeft s; score := score s;
       sessionBlinks := blinkCount (tracker s);
       headStabilityScore := headStabilityScore s;
       demoState := demoState s; target := target s;
       targetMoveTimer := targetMoveTimer s; tracker := tracker s |}
  else s.

Definition finishSession (s : State) : State :=
  {| isPlaying := false; isFinished := true;
     timeLeft := timeLeft s; score := score s;
     sessionBlinks := sessionBlinks s;
     headStabilityScore := headStabilityScore s;
     demoState := demoState s; target := target s;
     targetMoveTimer := targetMoveTimer s; tracker := tracker s |}.

Definition restartSession (props : Props) (s : State) : State :=
  {| isPlaying := false; isFinished := false;
     timeLeft := durationSeconds props;
     score := 0;
     sessionBlinks := 0;
     headStabilityScore := 100;
     demoState := demoState s;
     target := mkTarget 50 50 true;
     targetMoveTimer := targetMoveTimer s;
     tracker := setBlinkCount (tracker s) 0 |}.

(** One firing of the one-second interval. *)
Definition timerTick (s : State) : State :=
  if negb (isPlaying s) || isFinished s then s
  else if (timeLeft s <=? 1)%Z then
    let s' := finishSession s in
    {| isPlaying := isPlaying s'; isFinished := isFinished s';
       timeLeft := 0; score := score s';
       sessionBlinks := sessionBlinks s';
       headStabilityScore := headStabilityScore s';
       demoState := demoState s'; target := target s';
       targetMoveTimer := targetMoveTimer s'; tracker := tracker s' |}
  else
    {| isPlaying := isPlaying s; isFinished := isFinished s;
       timeLeft := timeLeft s - 1; score := score s;
       sessionBlinks := sessionBlinks s;
       headStabilityScore := headStabilityScore s;
       demoState := demoState s; target := target s;
       targetMoveTimer := targetMoveTimer s; tracker := tracker s |}.

(** One firing of the 100 ms interval [gameLoop]; [rx] and [ry] are the
    two random numbers drawn when the dot is moved. *)
Definition gameLoop (props : Props) (rx ry : R) (s : State) : State :=
  if negb (isPlaying s) || isFinished s then s
  else
    match exerciseType props with
    | FOLLOW_DOT =>
        let moved := (20 <? targetMoveTimer s)%Z in
        {| isPlaying := isPlaying s; isFinished := isFinished s;
           timeLeft := timeLeft s;
           score :=
             if JS.gtb (confidence (faceData (tracker s))) 0.5
             then (score s + 1)%Z else score s;
           sessionBlinks := sessionBlinks s;
           headStabilityScore := headStabilityScore s;
           demoState := demoState s;
           target :=
             if moved then mkTarget (10 + rx * 80) (15 + ry * 70) true
             else target s;
           targetMoveTimer :=
             if moved then 0%Z else (targetMoveTimer s + 1)%Z;
           tracker := tracker s |}
    | BLINK_TRAINING =>
        {| isPlaying := isPlaying s; isFinished := isFinished s;
           timeLeft := timeLeft s;
           score := sessionBlinks s;
           sessionBlinks := sessionBlinks s;
           headStabilityScore := headStabilityScore s;
           demoState := demoState s; target := target s;
           targetMoveTimer := targetMoveTimer s; tracker := tracker s |}
    | HEAD_STABILITY =>
        let deviation :=
          JS.Math_abs (yaw (faceData (tracker s)))
          + JS.Math_abs (pitch (faceData (tracker s))) in
        {| isPlaying := isPlaying s; isFinished := isFinished s;
           timeLeft := timeLeft s; score := score s;
           sessionBlinks := sessionBlinks s;
           headStabilityScore :=
             if JS.gtb deviation 5
             then JS.Math_max 0 (headStabilityScore s - 0.2)
             else JS.Math_min 100 (headStabilityScore s + 0.05);
           demoState := demoState s; target := target s;
           targetMoveTimer := targetMoveTimer s; tracker := tracker s |}
    end.

Definition togglePlay (props : Props) (s : State) : State :=
  if isFinished s then restartSession props s
  else
    syncBlinks
      {| isPlaying := negb (isPlaying s); isFinished := isFinished s;
         timeLeft := timeLeft s; score := score s;
         sessionBlinks := sessionBlinks s;
         headStabilityScore := headStabilityScore s;
         demoState := demoState s; target := target s;
         targetMoveTimer := targetMoveTimer s; tracker := tracker s |}.

Definition setDemoState (p : DemoProfile) (s : State) : State :=
  {| isPlaying := isPlaying s; isFinished := isFinished s;
     timeLeft := timeLeft s; score := score s;
     sessionBlinks := sessionBlinks s;
     headStabilityScore := headStabilityScore s;
     demoState := p; target := target s;
     targetMoveTimer := targetMoveTimer s; tracker := tracker s |}.

(** One animation tick of the tracker the component owns; the hook is
    active only while playing. *)
Definition animationFrame (props : Props) (cam : Camera) (rnd : Draws)
    (time : R) (s : State) : State :=
  if isPlaying s then
    syncBlinks
      {| isPlaying := isPlaying s; isFinished := isFinished s;
         timeLeft := timeLeft s; score := score s;
         sessionBlinks := sessionBlinks s;
         headStabilityScore := headStabilityScore s;
         demoState := demoState s; target := target s;
         targetMoveTimer := targetMoveTimer s;
         tracker :=
           loop (mode props) (demoState s) cam rnd time (tracker s) |}
  else s.

(** Everything that can happen to a mounted exercise. *)
Inductive Event : Type :=
| AnimationFrame (cam : Camera) (rnd : Draws) (time : R)
| TimerTick
| GameTick (rx ry : R)
| TogglePlay
| Restart
| SetDemoState (p : DemoProfile).

Definition step (props : Props) (s : State) (e : Event) : State :=
  match e with
  | AnimationFrame cam rnd time => animationFrame props cam rnd time s
  | TimerTick => timerTick s
  | GameTick rx ry => gameLoop props rx ry s
  | TogglePlay => togglePlay props s
  | Restart => if isFinished s then restartSession props s else s
  | SetDemoState p => setDemoState p s
  end.

Definition run (props : Props) (events : list Event) : State :=
  fold_left (step props) events (initialState props).

(** *** Clinical analysis *)

(** [exerciseType.replace('_', ' ')] *)
Definition exerciseLabel (e : ExerciseType) : string :=
  match e with
  | FOLLOW_DOT => "FOLLOW DOT"
  | BLINK_TRAINING => "BLINK TRAINING"
  | HEAD_STABILITY => "HEAD STABILITY"
  end.

Definition buildReport (props : Props) (s : State) (val : JS.jsnum)
    (unit : string) (st : Status) (rec : string) (notes : list string)
    : SessionAnalysis :=
  {| sa_exerciseType := exerciseLabel (exerciseType props);
     sa_duration := durationSeconds props;
     sa_score := score s;
     clinicalValue := val;
     clinicalUnit := unit;
     status := st;
     recommendation := rec;
     notes := notes |}.

(** The table of the demonstration mode. *)
Definition demoReport (props : Props) (s : State) : SessionAnalysis :=
  let report := buildReport props s in
  match exerciseType props, demoState s with
  | BLINK_TRAINING, LOW =>
      report (JS.Fin 6) "BPM" WARNING
        "Blink rate is critically low. Blink awareness exercises recommended."
        ["Severe Dry Eye Risk"; "Incomplete Blink Pattern"]
  | BLINK_TRAINING, HIGH =>
      report (JS.Fin 42) "BPM" WARNING
        "High frequency blinking detected. Monitor for blepharospasm."
        ["Excessive Blinking"; "Possible Irritation"; "Anxiety Indicated"]
  | BLINK_TRAINING, HEALTHY =>
      report (JS.Fin 16) "BPM" GOOD
        "Normal spontaneous blink rate observed."
        ["Healthy tear film"; "Good rhythm"]
  | FOLLOW_DOT, LOW =>
      report (JS.Fin 45) "% Accuracy" CRITICAL
        "Significant gaze instability detected. Vestibular consult advised."
        ["Tracking Latency"; "Saccadic Intrusion"; "Poor Fixation"]
  | FOLLOW_DOT, HIGH =>
      report (JS.Fin 98) "% Accuracy" GOOD
        "Oculomotor control is excellent. No deficits found."
        ["Smooth Pursuit"; "Accurate Saccades"]
  | FOLLOW_DOT, HEALTHY =>
      report (JS.Fin 88) "% Accuracy" GOOD
        "Tracking falls within normal clinical limits."
        ["Good Oculomotor Control"]
  | HEAD_STABILITY, LOW =>
      report (JS.Fin 35) "% Stability" CRITICAL
        "Poor cephalic control. Risk of cervicogenic dizziness."
        ["Postural Drift"; "Tremor Detected"; "Neck Stiffness"]
  | HEAD_STABILITY, HIGH =>
      report (JS.Fin 96) "% Stability" GOOD
        "Excellent vestibulo-collic reflex function."
        ["High Stability"; "No Tremor"]
  | HEAD_STABILITY, HEALTHY =>
      report (JS.Fin 82) "% Stability" GOOD
        "Head stability is adequate for daily tasks."
        ["Normal Range of Motion"]
  end.

(** [(durationSeconds - timeLeft) / 60 || 1] *)
Definition durationMins (props : Props) (s : State) : R :=
  let mins := IZR (durationSeconds props - timeLeft s) / 60 in
  if Req_dec_T mins 0 then 1 else mins.

Definition getDetailedAnalysis (props : Props) (s : State)
    : SessionAnalysis :=
  match mode props with
  | DEMO => demoReport props s
  | REAL =>
      match exerciseType props with
      | BLINK_TRAINING =>
          let bpm :=
            JS.round (JS.div (IZR (sessionBlinks s)) (durationMins props s)) in
          let st0 := if JS.lt_const bpm 10 then WARNING else GOOD in
          let st := if JS.gt_const bpm 30 then WARNING else st0 in
          buildReport props s bpm "BPM" st
            (match st with
             | GOOD => "Healthy blink patterns."
             | _ => "Abnormal blink rate detected."
             end)
            (if JS.lt_const bpm 10 then ["Possible Dry Eye"] else [])
      | HEAD_STABILITY =>
          let stabScore := JS.Math_round (headStabilityScore s) in
          let st :=
            if JS.ltb stabScore 60 then CRITICAL
            else if JS.ltb stabScore 80 then WARNING else GOOD in
          buildReport props s (JS.Fin stabScore) "% Stability" st
            "Stabilization training ongoing." []
      | FOLLOW_DOT =>
          let efficiency :=
            JS.or_else
              (JS.min_with 100
                 (JS.round
                    (JS.scale
                       (JS.div (IZR (score s))
                          (IZR (durationSeconds props - timeLeft s) * 10))
                       100)))
              (JS.Fin 0) in
          let st := if JS.lt_const efficiency 50 then CRITICAL else GOOD in
          buildReport props s efficiency "% Accuracy" st
            "Gaze control assessment complete." []
      end
  end.

(** [const analysis = isFinished ? getDetailedAnalysis() : null] *)
Definition analysis (props : Props) (s : State) : option SessionAnalysis :=
  if isFinished s then Some (getDetailedAnalysis props s) else None.

(** *** Countdown display and report gauge *)

(** [n.toString()] for an integer. *)
Definition toString (n : Z) : string := NilZero.string_of_int (Z.to_int n).

(** [s.padStart(targetLength, pad)] for a one-character pad. *)
Definition padStart (targetLength : nat) (pad : ascii) (s : string) : string :=
  string_of_list_ascii (repeat pad (targetLength - String.length s)) ++ s.

(** [formatTime]: minutes and seconds, each padded to two digits. *)
Definition formatTime (seconds : Z) : string :=
  let m := (seconds / 60)%Z in
  let s := Z.rem seconds 60 in
  padStart 2 "0" (toString m) ++ ":" ++ padStart 2 "0" (toString s).

Inductive GaugeType : Type := BPM | PERCENT.

(** The gauge the report card draws for an analysis. *)
Definition gaugeType (a : SessionAnalysis) : GaugeType :=
  if String.eqb (clinicalUnit a) "BPM" then BPM else PERCENT.

Definition maxScale (type : GaugeType) : R :=
  match type with BPM => 50 | PERCENT => 100 end.

(** The position of the marker of [renderGauge], in percent of the bar. *)
Definition gaugePercentage (value : R) (type : GaugeType) : R :=
  JS.Math_min 100 (JS.Math_max 0 (value / maxScale type * 100)).

End RehabExercise.

(** ** The rounded quotients of the analysis in binary64 *)

Module Binary64.

Local Open Scope Z_scope.

(** The JavaScript number holding the integer [z] (exact below 2^53). *)
Definition ofZ (z : Z) : PrimFloat.float :=
  if z <? 0 then PrimFloat.opp (PrimFloat.of_uint63 (Uint63.of_Z (- z)))
  else PrimFloat.of_uint63 (Uint63.of_Z z).

(** The integer a JavaScript number holds, if it holds one. *)
Definition toZ (v : PrimFloat.float) : option Z :=
  match FloatOps.Prim2SF v with
  | SpecFloat.S754_zero _ => Some 0
  | SpecFloat.S754_finite s m e =>
      let n := if s then Z.neg m else Z.pos m in
      if 0 <=? e then Some (n * 2 ^ e)
      else
        let d := 2 ^ (- e) in
        if n mod d =? 0 then Some (n / d) else None
  | _ => None
  end.

(** [Math.round]: the nearest integer, a tie going to the integer above;
    a number of the form m * 2^e is rounded to floor(m * 2^e + 1/2).
    (A result of -0 is given as 0; both are replaced alike by [||].) *)
Definition Math_round (v : PrimFloat.float) : PrimFloat.float :=
  match FloatOps.Prim2SF v with
  | SpecFloat.S754_finite s m e =>
      if 0 <=? e then v
      else
        let n := if s then Z.neg m else Z.pos m in
        let d := 2 ^ (- e) in
        ofZ ((2 * n + d) / (2 * d))
  | _ => v
  end.

(** [Math.min] of two numbers. *)
Definition Math_min (a b : PrimFloat.float) : PrimFloat.float :=
  if PrimFloat.is_nan a || PrimFloat.is_nan b then PrimFloat.nan
  else if PrimFloat.ltb b a then b else a.

(** [v || d] on numbers: 0 and NaN are falsy. *)
Definition or_else (v d : PrimFloat.float) : PrimFloat.float :=
  if PrimFloat.is_nan v || PrimFloat.is_zero v then d else v.

(** [const durationMins = (durationSeconds - timeLeft) / 60 || 1]; the
    counters hold integers, whose difference is exact. *)
Definition durationMins (durationSeconds timeLeft : Z) : PrimFloat.float :=
  or_else (PrimFloat.div (ofZ (durationSeconds - timeLeft)) (ofZ 60))
    (ofZ 1).

(** [const bpm = Math.round(sessionBlinks / durationMins)] *)
Definition bpm (durationSeconds timeLeft sessionBlinks : Z)
    : PrimFloat.float :=
  Math_round
    (PrimFloat.div (ofZ sessionBlinks)
       (durationMins durationSeconds timeLeft)).

(** [const efficiency = Math.min(100, Math.round((score /
    ((durationSeconds - timeLeft) * 10)) * 100)) || 0] *)
Definition efficiency (durationSeconds timeLeft score : Z)
    : PrimFloat.float :=
  or_else
    (Math_min (ofZ 100)
       (Math_round
          (PrimFloat.mul
             (PrimFloat.div (ofZ score)
                (PrimFloat.mul (ofZ (durationSeconds - timeLeft)) (ofZ 10)))
             (ofZ 100))))
    (ofZ 0).

End Binary64.

(** ** The guided assessment ([components/Assessment.tsx]) *)

Module Assessment.

Local Open Scope string_scope.

Record Step : Type := mkStep {
  id : string;
  title : string;
  duration : Z;
  prompt : string
}.

Definition STEPS : list Step :=
  [ mkStep "intro" "Prepare for Assessment" 5
      "Ensure your face is well-lit and centered. Remove glasses if possible.";
    mkStep "calibration" "Calibration" 3
      "Look straight at the camera and hold still.";
    mkStep "eye_track" "Oculomotor Control" 10
      "Follow the green dot with your eyes without moving your head.";
    mkStep "face_sym" "Facial Symmetry" 8
      "Smile widely, then relax. Raise your eyebrows.";
    mkStep "head_stab" "Head Stability" 8
      "Keep your head perfectly still while focusing on the center.";
    mkStep "complete" "Analyzing Data" 3 "Processing your results..." ].

Record State : Type := mkState {
  stepIndex : nat;
  timeLeft : Z;
  score : R
}.

Definition initialState : State :=
  {| stepIndex := 0; timeLeft := 5; score := 70 |}.

(** [STEPS[i]?.duration || 0] *)
Definition durationAt (i : nat) : Z :=
  match nth_error STEPS i with
  | Some step => duration step
  | None => 0%Z
  end.

(** One firing of the one-second interval, which runs only before the
    last step; [faceData] is the frame the tracker last published. *)
Definition tick (faceData : FaceData) (s : State) : State :=
  if (List.length STEPS - 1 <=? stepIndex s)%nat then s
  else
    {| stepIndex :=
         if (timeLeft s <=? 1)%Z then S (stepIndex s) else stepIndex s;
       timeLeft :=
         if (timeLeft s <=? 1)%Z then durationAt (stepIndex s + 1)
         else (timeLeft s - 1)%Z;
       score :=
         if JS.gtb (confidence faceData) 0.8
         then JS.Math_min 100 (score s + 0.1)
         else JS.Math_max 0 (score s - 0.5) |}.

(** The score handed to [onComplete], from one random draw. *)
Definition completionScore (random : R) : R :=
  JS.Math_floor (random * 20) + 75.

End Assessment.

(** ** Notions of the specification and auxiliary functions *)

Module Spec.

Import AiEngine RehabExercise.

(** The maximal contiguous runs of a boolean sequence, in order: the
    value of each run and its length. *)
Fixpoint runs (l : list bool) : list (bool * nat) :=
  match l with
  | [] => []
  | b :: t =>
      match runs t with
      | (b', n) :: r =>
          if Bool.eqb b b' then (b, S n) :: r else (b, 1%nat) :: (b', n) :: r
      | [] => [(b, 1%nat)]
      end
  end.

(** A sequence is rebuilt from its runs. *)
Fixpoint unruns (rs : list (bool * nat)) : list bool :=
  match rs with
  | [] => []
  | (b, n) :: r => repeat b n ++ unruns r
  end.

(** Neighbouring runs differ in value and no run is empty. *)
Fixpoint maximal (rs : list (bool * nat)) : Prop :=
  match rs with
  | [] => True
  | (b, n) :: r =>
      (0 < n)%nat /\
      match r with
      | [] => True
      | (b', _) :: _ => b <> b'
      end /\ maximal r
  end.

(** The number of maximal runs of [true]. *)
Definition blinkRuns (l : list bool) : nat :=
  List.length (filter fst (runs l)).

(** The rising edges of a sequence read after the state [last]. *)
Fixpoint risingEdges (last : bool) (l : list bool) : nat :=
  match l with
  | [] => 0
  | b :: t => ((if b && negb last then 1 else 0) + risingEdges b t)%nat
  end.


(** Blinks per minute with the elapsed time floored at one minute, as
    the specification words it. *)
Definition flooredMinutes (elapsedSeconds : Z) : R :=
  Rmax 1 (IZR elapsedSeconds / 60).

Definition bpmFloored (blinks elapsedSeconds : Z) : R :=
  JS.Math_round (IZR blinks / flooredMinutes elapsedSeconds).

(** Gaze accuracy as the specification words it, for a non-zero elapsed
    time. *)
Definition gazeAccuracy (score elapsedSeconds : Z) : R :=
  Rmin 100 (JS.Math_round (IZR score / (IZR elapsedSeconds * 10) * 100)).

(** The frame ranges of the data model. *)
Definition unit_interval (v : R) : Prop := 0 <= v <= 1.

Definition scoresInRange (f : FaceData) : Prop :=
  unit_interval (confidence f) /\
  unit_interval (eyeOpennessLeft f) /\
  unit_interval (eyeOpennessRight f) /\
  unit_interval (mouthSymmetry f).

Definition gazeInRange (f : FaceData) : Prop :=
  -1 <= gazeX f <= 1 /\ -1 <= gazeY f <= 1.

(** [Math.random()] returns a number in the half-open unit interval. *)
Definition drawsInRange (rnd : Draws) : Prop :=
  0 <= jitterDrawX rnd < 1 /\ 0 <= jitterDrawY rnd < 1
  /\ 0 <= blinkDraw rnd < 1.

(** Landmarks are normalised image coordinates. *)
Definition normalized (p : Point) : Prop :=
  unit_interval (x p) /\ unit_interval (y p).

(** The contract of the detector on blendshape scores: activations in
    the unit interval. *)
Definition scoresNormalized (results : Results) : Prop :=
  match faceBlendshapes results with
  | Some faces => Forall (Forall (fun c => unit_interval (AiEngine.score c))) faces
  | None => True
  end.

Definition detectorContract (cam : Camera) : Prop :=
  match detectForVideo cam with
  | Returns results => scoresNormalized results
  | Throws => True
  end.

Definition eventContract (e : Event) : Prop :=
  match e with
  | AnimationFrame cam _ _ => detectorContract cam
  | _ => True
  end.

(** The ranges that hold of a tracker and of a session at any time. *)
Definition trackerInRange (t : Tracker) : Prop :=
  scoresInRange (faceData t) /\ scoresInRange (prevDataRef t).

Definition sessionInRange (s : State) : Prop :=
  trackerInRange (tracker s) /\ 0 <= headStabilityScore s <= 100.

(** The edge detector's memory agrees with the frame held for smoothing. *)
Definition edgeConsistent (t : Tracker) : Prop :=
  lastBlinkState t = blinkDetected (prevDataRef t).

(** One animation tick: what the scheduler reads at it. *)
Record Tick : Type := mkTick {
  tickCamera : Camera;
  tickDraws : Draws;
  tickTime : R
}.

Definition loopTick (mode : RehabMode) (demoProfile : DemoProfile)
    (t : Tracker) (k : Tick) : Tracker :=
  loop mode demoProfile (tickCamera k) (tickDraws k) (tickTime k) t.

(** Whether a tick at [time] gets past the throttle. *)
Definition processes (mode : RehabMode) (t : Tracker) (time : R) : bool :=
  match mode with
  | REAL => negb (JS.ltb (time - lastProcessTimeRef t) 32)
  | DEMO => true
  end.

(** The number of ticks of a run that get past the throttle. *)
Fixpoint processedCount (mode : RehabMode) (demoProfile : DemoProfile)
    (ticks : list Tick) (t : Tracker) : nat :=
  match ticks with
  | [] => 0
  | k :: ks =>
      ((if processes mode t (tickTime k) then 1 else 0)
       + processedCount mode demoProfile ks (loopTick mode demoProfile t k))%nat
  end.

Definition eyeNormalized (e : EyeLandmarks) : Prop :=
  normalized (pupil e) /\ normalized (upperLid e) /\ normalized (lowerLid e)
  /\ normalized (innerCorner e) /\ normalized (outerCorner e).

Definition eyesNormalized (f : FaceData) : Prop :=
  match leftEye f with Some e => eyeNormalized e | None => True end
  /\ match rightEye f with Some e => eyeNormalized e | None => True end.

(** The status the thresholds of the measured path give to a value. *)
Definition thresholdStatus (e : ExerciseType) (v : JS.jsnum) : Status :=
  match e with
  | BLINK_TRAINING =>
      if JS.lt_const v 10 || JS.gt_const v 30 then WARNING else GOOD
  | HEAD_STABILITY =>
      if JS.lt_const v 60 then CRITICAL
      else if JS.lt_const v 80 then WARNING else GOOD
  | FOLLOW_DOT => if JS.lt_const v 50 then CRITICAL else GOOD
  end.

Definition isGameTick (e : Event) : bool :=
  match e with GameTick _ _ => true | _ => false end.


(** Reading a countdown display back: the digits before the colon are
    minutes, the two after it seconds. *)
Definition decodeTime (display : string) : option Z :=
  let n := String.length display in
  match get (n - 3) display,
        NilZero.uint_of_string (substring 0 (n - 3) display),
        NilZero.uint_of_string (substring (n - 2) 2 display) with
  | Some ":"%char, Some m, Some s => Some (Z.of_uint m * 60 + Z.of_uint s)%Z
  | _, _, _ => None
  end.

(** Whether one time is displayed on five characters and read back as
    itself, and whether that holds of [count] successive times. *)
Definition displayRoundTrip (seconds : Z) : bool :=
  let display := formatTime seconds in
  Nat.eqb (String.length display) 5
  && match decodeTime display with
     | Some v => Z.eqb v seconds
     | None => false
     end.

Fixpoint displayRoundTrips (start : Z) (count : nat) : bool :=
  match count with
  | O => true
  | S k => displayRoundTrip start && displayRoundTrips (start + 1) k
  end.

(** Two frames carry the same measurements: they may differ in
    [confidence] and [blinkDetected] only. *)
Definition sameSignal (f g : FaceData) : Prop :=
  yaw f = yaw g /\ pitch f = pitch g /\ roll f = roll g
  /\ eyeOpennessLeft f = eyeOpennessLeft g
  /\ eyeOpennessRight f = eyeOpennessRight g
  /\ mouthSymmetry f = mouthSymmetry g
  /\ gazeX f = gazeX g /\ gazeY f = gazeY g
  /\ leftEye f = leftEye g /\ rightEye f = rightEye g.

(** The contract of the detector on landmarks: every point of every mesh
    it returns is a normalised image point. *)
Definition landmarksNormalized (cam : Camera) : Prop :=
  match detectForVideo cam with
  | Returns results =>
      Forall (fun mesh : FaceMesh => forall i : nat, normalized (mesh i))
        (faceLandmarks results)
  | Throws => True
  end.

(** Gaze and eye landmarks of the frames a tracker holds are in range. *)
Definition geometryInRange (t : Tracker) : Prop :=
  gazeInRange (faceData t) /\ eyesNormalized (faceData t)
  /\ gazeInRange (prevDataRef t) /\ eyesNormalized (prevDataRef t).

(** What holds of a session whatever happened to it. *)
Definition phaseInvariant (props : Props) (s : State) : Prop :=
  (isFinished s = true -> isPlaying s = false /\ timeLeft s = 0%Z)
  /\ (0 <= timeLeft s <= durationSeconds props)%Z.

Definition counterInvariant (props : Props) (s : State) : Prop :=
  sessionBlinks s = blinkCount (tracker s)
  /\ (0 <= sessionBlinks s)%Z
  /\ (0 <= score s)%Z
  /\ (exerciseType props = BLINK_TRAINING -> score s <= sessionBlinks s)%Z
  /\ (exerciseType props = HEAD_STABILITY -> score s = 0%Z).

(** The events driven by the clock or the camera rather than the user. *)
Definition isClockEvent (e : Event) : bool :=
  match e with
  | AnimationFrame _ _ _ | TimerTick | GameTick _ _ => true
  | _ => false
  end.

(** A camera tick that cannot give a frame built from a face: the model
    is not loaded, the video is not mounted or not ready, the detector
    throws, or it returns no face. *)
Definition noFaceAvailable (cam : Camera) : Prop :=
  faceLandmarker cam = false
  \/ videoRef cam = None
  \/ (exists video : Video,
         videoRef cam = Some video /\ (readyState video < 2)%Z)
  \/ detectForVideo cam = Throws
  \/ (exists results : Results,
         detectForVideo cam = Returns results
         /\ faceLandmarks results = []).

(** A check that holds at [count] consecutive integers from [start]. *)
Fixpoint allFrom (check : Z -> bool) (start : Z) (count : nat) : bool :=
  match count with
  | O => true
  | S k => check start && allFrom check (start + 1) k
  end.

(** The binary64 blink rate of a finished session against the exact
    quotient 60 * blinks / elapsed: it is the quotient rounded with a tie
    going up, or the quotient is a tie and it is the integer below. *)
Definition bpmAgrees (elapsed blinks : Z) : bool :=
  match Binary64.toZ (Binary64.bpm elapsed 0 blinks) with
  | Some v =>
      let rounded := ((120 * blinks + elapsed) / (2 * elapsed))%Z in
      ((v =? rounded)
       || ((v =? rounded - 1)
           && ((120 * blinks + elapsed) mod (2 * elapsed) =? 0)))%Z
  | None => false
  end.

(** The same for the binary64 gaze accuracy against the exact ratio
    10 * score / elapsed, capped at 100. *)
Definition accuracyAgrees (elapsed score : Z) : bool :=
  match Binary64.toZ (Binary64.efficiency elapsed 0 score) with
  | Some v =>
      let rounded := ((20 * score + elapsed) / (2 * elapsed))%Z in
      ((v =? Z.min 100 rounded)
       || ((v =? rounded - 1)
           && ((20 * score + elapsed) mod (2 * elapsed) =? 0)))%Z
  | None => false
  end.

(** No category of the list carries the given name. *)
Definition lacks (cs : list Category) (name : string) : Prop :=
  forall c : Category, In c cs -> categoryName c <> name.

End Spec.

(** ** Concrete inputs used to exercise the properties *)

Module Scenario.

Import AiEngine RehabExercise.

(** A camera whose detector returns [results] on a ready video showing
    media time [now]. *)
Definition readyCamera (now : R) (results : Results) : Camera :=
  {| faceLandmarker := true;
     videoRef := Some {| readyState := 4; currentTime := now |};
     detectForVideo := Returns results |}.

(** A mesh with the nose tip at [nose] and every other landmark at the
    centre of the image. *)
Definition meshWithNose (nose : Point) : FaceMesh :=
  fun i => if Nat.eqb i 1 then nose else mkPoint 0.5 0.5.

Definition oneFace (landmarks : FaceMesh) : Results :=
  {| faceLandmarks := [landmarks]; faceBlendshapes := None |}.

Definition noFace : Results :=
  {| faceLandmarks := []; faceBlendshapes := None |}.

(** A face seen with both eyes closing. *)
Definition blinkingFace (landmarks : FaceMesh) : Results :=
  {| faceLandmarks := [landmarks];
     faceBlendshapes :=
       Some [[mkCategory "eyeBlinkLeft" 0.7;
              mkCategory "eyeBlinkRight" 0.6]] |}.

(** Random draws that are all one half: no jitter and no random blink. *)
Definition evenDraws : Draws := mkDraws 0.5 0.5 0.5.

(** A session that has just finished with the given counters. *)
Definition finishedSession (timeLeft score sessionBlinks : Z)
    (headStabilityScore : R) : State :=
  {| isPlaying := false;
     isFinished := true;
     timeLeft := timeLeft;
     score := score;
     sessionBlinks := sessionBlinks;
     headStabilityScore := headStabilityScore;
     demoState := HEALTHY;
     target := mkTarget 50 50 true;
     targetMoveTimer := 0;
     tracker := initialTracker |}.

(** A session being played, with the given counters and tracker. *)
Definition playingSession (timeLeft score : Z) (headStabilityScore : R)
    (t : Tracker) : State :=
  {| isPlaying := true;
     isFinished := false;
     timeLeft := timeLeft;
     score := score;
     sessionBlinks := blinkCount t;
     headStabilityScore := headStabilityScore;
     demoState := HEALTHY;
     target := mkTarget 50 50 true;
     targetMoveTimer := 0;
     tracker := t |}.

End Scenario.

(** * Properties *)

Import AiEngine RehabExercise Spec Scenario.

(** ** Blink edge detector *)

Section BlinkEdges.

(** The first run of a non-empty sequence carries its first value. *)
Lemma runs_head (b : bool) (t : list bool) :
  exists n r, runs (b :: t) = (b, n) :: r.
Proof.
  simpl. destruct (runs t) as [| [b' n] r].
  - now exists 1%nat, [].
  - destruct (Bool.eqb b b'); eauto.
Qed.

(** [runs] loses nothing: the sequence is the concatenation of its runs. *)
Lemma unruns_runs (l : list bool) : unruns (runs l) = l.
Proof.
  induction l as [| b t IH]; [reflexivity |].
  simpl. destruct (runs t) as [| [b' n] r] eqn:E.
  - simpl in *. now rewrite <- IH.
  - destruct (Bool.eqb b b') eqn:Eb.
    + apply Bool.eqb_prop in Eb. subst b'. simpl in *. now rewrite IH.
    + simpl in *. now rewrite IH.
Qed.

(** The runs are maximal: none is empty and neighbours differ. *)
Lemma runs_maximal (l : list bool) : maximal (runs l).
Proof.
  induction l as [| b t IH]; [exact I |].
  simpl. destruct (runs t) as [| [b' n] r] eqn:E.
  - simpl. split; [lia | split; exact I].
  - destruct (Bool.eqb b b') eqn:Eb.
    + apply Bool.eqb_prop in Eb. subst b'.
      destruct IH as (_ & Hd & Hm).
      split; [lia | split; assumption].
    + apply Bool.eqb_false_iff in Eb.
      split; [lia | split; assumption].
Qed.

(** Putting one more value in front adds a run of [true] exactly when the
    value is [true] and the sequence does not already start with one. *)
Lemma blinkRuns_cons (b : bool) (t : list bool) :
  blinkRuns (b :: t)
  = ((if b && negb (hd false t) then 1 else 0) + blinkRuns t)%nat.
Proof.
  unfold blinkRuns. destruct t as [| c t'].
  - simpl. now destruct b.
  - destruct (runs_head c t') as (n & r & E).
    change (runs (b :: c :: t'))
      with (match runs (c :: t') with
            | (b', n) :: r =>
                if Bool.eqb b b' then (b, S n) :: r
                else (b, 1%nat) :: (b', n) :: r
            | [] => [(b, 1%nat)]
            end).
    rewrite E. now destruct b, c.
Qed.

Lemma blinkRuns_risingEdges (l : list bool) (last : bool) :
  blinkRuns (last :: l)
  = ((if last then 1 else 0) + risingEdges last l)%nat.
Proof.
  revert last. induction l as [| b t IH]; intro last.
  - now destruct last.
  - rewrite blinkRuns_cons, IH. simpl. destruct last, b; simpl; lia.
Qed.

Lemma risingEdges_false (l : list bool) :
  risingEdges false l = blinkRuns l.
Proof.
  pose proof (blinkRuns_risingEdges l false) as H.
  rewrite blinkRuns_cons in H. simpl in H. lia.
Qed.

(** The counter after a sequence of delivered frames. *)
Lemma deliver_count (frames : list FaceData) (t : Tracker) :
  blinkCount (fold_left deliver frames t)
  = (blinkCount t
     + Z.of_nat (risingEdges (lastBlinkState t)
                   (map blinkDetected frames)))%Z.
Proof.
  revert t. induction frames as [| f fs IH]; intro t; simpl.
  - lia.
  - rewrite IH. simpl.
    destruct (blinkDetected f), (lastBlinkState t); simpl; lia.
Qed.

Lemma last_nonempty (b : bool) (l : list bool) (d d' : bool) :
  last (b :: l) d = last (b :: l) d'.
Proof.
  revert b. induction l as [| c l IH]; intro b; [reflexivity |].
  change (last (c :: l) d = last (c :: l) d'). apply IH.
Qed.

Lemma deliver_last (frames : list FaceData) (t : Tracker) :
  lastBlinkState (fold_left deliver frames t)
  = last (map blinkDetected frames) (lastBlinkState t).
Proof.
  revert t. induction frames as [| f fs IH]; intro t; [reflexivity |].
  simpl fold_left. rewrite IH.
  destruct fs as [| g fs]; [reflexivity |].
  change (map blinkDetected (f :: g :: fs))
    with (blinkDetected f :: map blinkDetected (g :: fs)).
  change (last (blinkDetected f :: map blinkDetected (g :: fs))
            (lastBlinkState t))
    with (last (map blinkDetected (g :: fs)) (lastBlinkState t)).
  apply last_nonempty.
Qed.

(** The detector adapter leaves the blink edge detector alone. *)
Lemma processFrame_keeps_edge_state (cam : Camera) (t : Tracker) :
  lastBlinkState (snd (processFrame cam t)) = lastBlinkState t
  /\ blinkCount (snd (processFrame cam t)) = blinkCount t.
Proof.
  unfold processFrame.
  destruct (faceLandmarker cam); [| now split].
  destruct (videoRef cam) as [video |]; [| now split].
  destruct (readyState video <? 2)%Z; [now split |].
  destruct (Req_dec_T (currentTime video) (lastVideoTime t)); [now split |].
  destruct (detectForVideo cam) as [| results]; [now split |].
  destruct (faceLandmarks results); now split.
Qed.

(** A tick of [loop] is either throttled away, leaving the tracker as it
    is, or delivers exactly one frame to the edge detector. *)
Lemma loop_delivers (mode : RehabMode) (demoProfile : DemoProfile)
    (cam : Camera) (rnd : Draws) (time : R) (t : Tracker) :
  loop mode demoProfile cam rnd time t = t
  \/ exists (data : FaceData) (t' : Tracker),
       loop mode demoProfile cam rnd time t = deliver t' data
       /\ lastBlinkState t' = lastBlinkState t
       /\ blinkCount t' = blinkCount t.
Proof.
  unfold loop. destruct mode.
  - right. eexists _, _. split; [reflexivity | now split].
  - destruct (JS.ltb (time - lastProcessTimeRef t) 32); [now left | right].
    pose proof (processFrame_keeps_edge_state cam
                  (set_lastProcessTime t time)) as Hkeep.
    destruct (processFrame cam (set_lastProcessTime t time)) as [data t2].
    exists data, t2. split; [reflexivity | exact Hkeep].
Qed.

End BlinkEdges.

(** C2. Starting from a last-blink state of [false], delivering any
    sequence of frames raises the blink counter by exactly the number of
    maximal contiguous runs of frames with [blinkDetected = true]; every
    tick leaves the last-blink state equal to the delivered frame's flag;
    and frames whose flags read F,F,T,T,T,F,T bring the counter of a fresh
    tracker to 2. *)
Theorem blink_counter_once_per_run :
  forall (frames : list FaceData) (t : Tracker),
    lastBlinkState t = false ->
    blinkCount (fold_left deliver frames t)
    = (blinkCount t + Z.of_nat (blinkRuns (map blinkDetected frames)))%Z
    /\ (forall (u : Tracker) (f : FaceData),
          lastBlinkState (deliver u f) = blinkDetected f)
    /\ lastBlinkState (fold_left deliver frames t)
       = last (map blinkDetected frames) false
    /\ (map blinkDetected frames
        = [false; false; true; true; true; false; true] ->
        blinkCount (fold_left deliver frames initialTracker) = 2%Z).
Proof.
  intros frames t Hlast. split; [| split; [| split]].
  - rewrite deliver_count, Hlast, risingEdges_false. reflexivity.
  - reflexivity.
  - rewrite deliver_last, Hlast. reflexivity.
  - intro Hflags.
    rewrite deliver_count, Hflags. reflexivity.
Qed.

(** Seven frames with the flags F,F,T,T,T,F,T fed to a fresh tracker. *)
Lemma blink_counter_once_per_run_witness :
  lastBlinkState initialTracker = false
  /\ blinkCount
       (fold_left deliver
          (map (with_blinkDetected DEFAULT_FACE_DATA)
             [false; false; true; true; true; false; true])
          initialTracker) = 2%Z.
Proof.
  split; [reflexivity |].
  apply (blink_counter_once_per_run
           (map (with_blinkDetected DEFAULT_FACE_DATA)
              [false; false; true; true; true; false; true])
           initialTracker); reflexivity.
Defined.

(** ** The detector adapter, branch by branch *)

Section DetectorAdapter.

Lemma ltb_true (a b : R) : a < b -> JS.ltb a b = true.
Proof. intro H. unfold JS.ltb. destruct (Rlt_dec a b); [reflexivity | lra]. Qed.

Lemma ltb_false (a b : R) : b <= a -> JS.ltb a b = false.
Proof. intro H. unfold JS.ltb. destruct (Rlt_dec a b); [lra | reflexivity]. Qed.

Lemma gtb_true (a b : R) : b < a -> JS.gtb a b = true.
Proof. intro H. unfold JS.gtb. now apply ltb_true. Qed.

Lemma gtb_false (a b : R) : a <= b -> JS.gtb a b = false.
Proof. intro H. unfold JS.gtb. now apply ltb_false. Qed.

Variables (cam : Camera) (t : Tracker) (video : Video) (results : Results).

(** The detector ran on a fresh image and returned. *)
Hypothesis model_loaded : faceLandmarker cam = true.
Hypothesis video_mounted : videoRef cam = Some video.
Hypothesis video_ready : (2 <= readyState video)%Z.
Hypothesis video_advanced : currentTime video <> lastVideoTime t.
Hypothesis detector_returned : detectForVideo cam = Returns results.

Lemma processFrame_face (landmarks : FaceMesh) (others : list FaceMesh) :
  faceLandmarks results = landmarks :: others ->
  processFrame cam t
  = (faceFound (prevDataRef t) landmarks (categories results),
     set_lastVideoTime t (currentTime video)).
Proof.
  intro Hface. unfold processFrame.
  rewrite model_loaded, video_mounted.
  destruct (Z.ltb_spec (readyState video) 2); [lia |].
  destruct (Req_dec_T (currentTime video) (lastVideoTime t)); [contradiction |].
  rewrite detector_returned, Hface. reflexivity.
Qed.

Lemma processFrame_no_face :
  faceLandmarks results = [] ->
  processFrame cam t
  = (with_blinkDetected (with_confidence (prevDataRef t) 0.3) false,
     set_lastVideoTime t (currentTime video)).
Proof.
  intro Hnone. unfold processFrame.
  rewrite model_loaded, video_mounted.
  destruct (Z.ltb_spec (readyState video) 2); [lia |].
  destruct (Req_dec_T (currentTime video) (lastVideoTime t)); [contradiction |].
  rewrite detector_returned, Hnone. reflexivity.
Qed.

End DetectorAdapter.

(** C7. When the detector ran and found no face, the adapter returns the
    previous frame with [confidence] 0.3 and [blinkDetected] false, every
    other field being that of the previous frame. *)
Theorem no_face_degrades_previous_frame :
  forall (cam : Camera) (t : Tracker) (video : Video) (results : Results),
    faceLandmarker cam = true ->
    videoRef cam = Some video ->
    (2 <= readyState video)%Z ->
    currentTime video <> lastVideoTime t ->
    detectForVideo cam = Returns results ->
    faceLandmarks results = [] ->
    let prev := prevDataRef t in
    let f := fst (processFrame cam t) in
    confidence f = 0.3 /\ blinkDetected f = false
    /\ yaw f = yaw prev /\ pitch f = pitch prev /\ roll f = roll prev
    /\ eyeOpennessLeft f = eyeOpennessLeft prev
    /\ eyeOpennessRight f = eyeOpennessRight prev
    /\ mouthSymmetry f = mouthSymmetry prev
    /\ gazeX f = gazeX prev /\ gazeY f = gazeY prev
    /\ leftEye f = leftEye prev /\ rightEye f = rightEye prev.
Proof.
  intros cam t video results Hm Hv Hr Ha Hd Hn prev f. subst f.
  rewrite (processFrame_no_face cam t video results Hm Hv Hr Ha Hd Hn).
  simpl. repeat split; reflexivity.
Qed.

(** The first image of a session shows no face. *)
Lemma no_face_degrades_previous_frame_witness :
  confidence (fst (processFrame (readyCamera 0 noFace) initialTracker)) = 0.3
  /\ blinkDetected (fst (processFrame (readyCamera 0 noFace) initialTracker))
     = false.
Proof.
  destruct (no_face_degrades_previous_frame
              (readyCamera 0 noFace) initialTracker
              {| readyState := 4; currentTime := 0 |} noFace)
    as (Hc & Hb & _); try reflexivity.
  - simpl. lia.
  - simpl. lra.
  - split; assumption.
Defined.

(** C10. Whenever the detector path builds a frame from a found face, its
    [roll] is exactly 0, whatever the mesh and the previous frame; the
    synthetic path, by contrast, has a non-zero roll at time 0 in every
    profile. *)
Theorem detector_roll_is_zero :
  forall (cam : Camera) (t : Tracker) (video : Video) (results : Results)
         (landmarks : FaceMesh) (others : list FaceMesh),
    faceLandmarker cam = true ->
    videoRef cam = Some video ->
    (2 <= readyState video)%Z ->
    currentTime video <> lastVideoTime t ->
    detectForVideo cam = Returns results ->
    faceLandmarks results = landmarks :: others ->
    roll (fst (processFrame cam t)) = 0
    /\ (forall (demoProfile : DemoProfile) (rnd : Draws),
          roll (simulateData demoProfile rnd 0)
          = 0.5 * headStabilityMult demoProfile
          /\ roll (simulateData demoProfile rnd 0) <> 0).
Proof.
  intros cam t video results landmarks others Hm Hv Hr Ha Hd Hf. split.
  - rewrite (processFrame_face cam t video results Hm Hv Hr Ha Hd _ _ Hf).
    reflexivity.
  - intros demoProfile rnd.
    assert (E : roll (simulateData demoProfile rnd 0)
                = 0.5 * headStabilityMult demoProfile).
    { simpl. unfold Rdiv. rewrite !Rmult_0_l, sin_0, cos_0. lra. }
    split; [exact E |].
    rewrite E. destruct demoProfile; simpl; lra.
Qed.

(** A face with the nose right of centre, seen on the first image. *)
Lemma detector_roll_is_zero_witness :
  roll (fst (processFrame
               (readyCamera 0 (oneFace (meshWithNose (mkPoint 0.75 0.5))))
               initialTracker)) = 0.
Proof.
  destruct (detector_roll_is_zero
              (readyCamera 0 (oneFace (meshWithNose (mkPoint 0.75 0.5))))
              initialTracker {| readyState := 4; currentTime := 0 |}
              (oneFace (meshWithNose (mkPoint 0.75 0.5)))
              (meshWithNose (mkPoint 0.75 0.5)) [])
    as (Hroll & _); try reflexivity.
  - simpl. lia.
  - simpl. lra.
  - exact Hroll.
Defined.


(** ** The smoothing filter *)

(** C5 does not hold as stated: on the first image of a session the pose
    fields are already smoothed.  A nose at x = 0.75 gives a raw yaw of 50
    degrees and a raw gaze of 0.5, and the first frame reports 25 and
    0.25. *)
Lemma first_frame_pose_not_raw :
  yaw (fst (processFrame
              (readyCamera 0 (oneFace (meshWithNose (mkPoint 0.75 0.5))))
              initialTracker))
  <> rawYaw (meshWithNose (mkPoint 0.75 0.5))
  /\ gazeX (fst (processFrame
                   (readyCamera 0 (oneFace (meshWithNose (mkPoint 0.75 0.5))))
                   initialTracker))
     <> rawGazeX (meshWithNose (mkPoint 0.75 0.5)).
Proof.
  rewrite (processFrame_face
             (readyCamera 0 (oneFace (meshWithNose (mkPoint 0.75 0.5))))
             initialTracker
             {| readyState := 4; currentTime := 0 |}
             (oneFace (meshWithNose (mkPoint 0.75 0.5)))
             eq_refl eq_refl ltac:(simpl; lia) ltac:(simpl; lra) eq_refl
             (meshWithNose (mkPoint 0.75 0.5)) [] eq_refl).
  unfold faceFound, rawYaw, rawGazeX, lerp, POSE_SMOOTHING, meshWithNose.
  simpl. split; lra.
Qed.





(** ** The session state machine *)

(** C8. Restarting a finished session, by the restart button or by the
    play toggle, zeroes [score] and both blink counters, puts
    [headStabilityScore] back to 100 and [timeLeft] back to the configured
    duration, and leaves the session idle with its profile unchanged (the
    exercise kind is a property of the component and no event touches
    it). *)
Theorem restart_resets_session :
  forall (props : Props) (s : State) (e : Event),
    isFinished s = true ->
    e = Restart \/ e = TogglePlay ->
    let s' := step props s e in
    score s' = 0%Z
    /\ sessionBlinks s' = 0%Z
    /\ blinkCount (tracker s') = 0%Z
    /\ headStabilityScore s' = 100
    /\ timeLeft s' = durationSeconds props
    /\ phase s' = Idle
    /\ demoState s' = demoState s.
Proof.
  intros props s e Hfin [-> | ->] s'; subst s'; simpl;
    unfold togglePlay; rewrite Hfin; simpl; repeat split; reflexivity.
Qed.

(** A one-second blink session is played to its end and restarted. *)
Lemma restart_resets_session_witness :
  isFinished (run (mkProps REAL BLINK_TRAINING 1 HEALTHY)
                [TogglePlay; TimerTick]) = true
  /\ phase (step (mkProps REAL BLINK_TRAINING 1 HEALTHY)
              (run (mkProps REAL BLINK_TRAINING 1 HEALTHY)
                 [TogglePlay; TimerTick]) Restart) = Idle.
Proof.
  split; [reflexivity |].
  apply (restart_resets_session (mkProps REAL BLINK_TRAINING 1 HEALTHY)
           (run (mkProps REAL BLINK_TRAINING 1 HEALTHY)
              [TogglePlay; TimerTick]) Restart);
    [reflexivity | now left].
Defined.


(** ** Clinical analysis on the measured path *)

Section Rounding.

Lemma Math_round_eq (z : Z) (v : R) :
  IZR z - / 2 <= v < IZR z + / 2 -> JS.Math_round v = IZR z.
Proof.
  intro H. unfold JS.Math_round. f_equal. apply Zfloor_eq. lra.
Qed.

Lemma Math_round_IZR (z : Z) : JS.Math_round (IZR z) = IZR z.
Proof. apply Math_round_eq. lra. Qed.

(** [Math.round] returns an integer at most one half away from its
    argument. *)
Lemma Math_round_nearest (v : R) :
  JS.Math_round v = IZR (Zfloor (v + / 2))
  /\ Rabs (IZR (Zfloor (v + / 2)) - v) <= / 2.
Proof.
  split; [reflexivity |].
  pose proof (Zfloor_bound (v + / 2)) as Hb.
  unfold Rabs. destruct (Rcase_abs (IZR (Zfloor (v + / 2)) - v)); lra.
Qed.

(** Away from the midpoints between integers the nearest integer is
    unique. *)
Lemma nearest_unique (z k : Z) (v : R) :
  Rabs (IZR z - v) <= / 2 ->
  IZR k - / 2 < v < IZR k + / 2 ->
  z = k.
Proof.
  intros Hz Hk.
  assert (Hd : - / 2 <= IZR z - v <= / 2).
  { unfold Rabs in Hz. destruct (Rcase_abs (IZR z - v)); lra. }
  assert (Hlo : (k - 1 < z)%Z) by (apply lt_IZR; rewrite minus_IZR; lra).
  assert (Hhi : (z < k + 1)%Z) by (apply lt_IZR; rewrite plus_IZR; lra).
  lia.
Qed.

(** An integer within one half of a value that is not a midpoint is the
    value's [Math.round]. *)
Lemma nearest_is_round (z : Z) (v : R) :
  Rabs (IZR z - v) <= / 2 ->
  (forall k : Z, v <> IZR k + / 2) ->
  IZR z = JS.Math_round v.
Proof.
  intros Hz Hmid. symmetry. apply Math_round_eq.
  assert (Hd : - / 2 <= IZR z - v <= / 2).
  { unfold Rabs in Hz. destruct (Rcase_abs (IZR z - v)); lra. }
  specialize (Hmid z). lra.
Qed.

Lemma Rmin_IZR (a b : Z) : Rmin (IZR a) (IZR b) = IZR (Z.min a b).
Proof.
  destruct (Z.le_ge_cases a b) as [H | H].
  - rewrite Z.min_l by exact H. apply Rmin_left. now apply IZR_le.
  - rewrite Z.min_r by exact H. apply Rmin_right. now apply IZR_le.
Qed.

Lemma durationMins_zero (props : Props) (s : State) :
  (durationSeconds props - timeLeft s = 0)%Z -> durationMins props s = 1.
Proof.
  intro H. unfold durationMins. rewrite H.
  destruct (Req_dec_T (0 / 60) 0); [reflexivity | lra].
Qed.

Lemma durationMins_nonzero (props : Props) (s : State) :
  (durationSeconds props - timeLeft s <> 0)%Z ->
  durationMins props s = IZR (durationSeconds props - timeLeft s) / 60.
Proof.
  intro H. unfold durationMins.
  destruct (Req_dec_T (IZR (durationSeconds props - timeLeft s) / 60) 0)
    as [E | E]; [| reflexivity].
  exfalso. apply H. apply eq_IZR. lra.
Qed.

Lemma durationMins_neq_0 (props : Props) (s : State) :
  durationMins props s <> 0.
Proof.
  unfold durationMins.
  destruct (Req_dec_T (IZR (durationSeconds props - timeLeft s) / 60) 0);
    [lra | assumption].
Qed.

Lemma div_nonzero (a b : R) : b <> 0 -> JS.div a b = JS.Fin (a / b).
Proof.
  intro H. unfold JS.div. destruct (Req_dec_T b 0); [contradiction | reflexivity].
Qed.

(** The measured blink rate, whatever the elapsed time. *)
Lemma measured_bpm (props : Props) (s : State) :
  mode props = REAL ->
  exerciseType props = BLINK_TRAINING ->
  clinicalValue (getDetailedAnalysis props s)
  = JS.Fin (JS.Math_round (IZR (sessionBlinks s) / durationMins props s)).
Proof.
  intros Hm He. unfold getDetailedAnalysis. rewrite Hm, He. simpl.
  rewrite div_nonzero by apply durationMins_neq_0. reflexivity.
Qed.

End Rounding.

(** C1 does not hold as stated: a measured blink session of 30 seconds
    with 5 blinks reports 10 blinks per minute, where a divisor floored at
    one minute gives 5. *)
Lemma bpm_divisor_not_floored :
  clinicalValue
    (getDetailedAnalysis (mkProps REAL BLINK_TRAINING 30 HEALTHY)
       (finishedSession 0 5 5 100))
  = JS.Fin 10
  /\ bpmFloored 5 (30 - 0) = 5.
Proof.
  split.
  - rewrite measured_bpm by reflexivity.
    rewrite durationMins_nonzero by (simpl; lia).
    simpl. f_equal. apply (Math_round_eq 10). lra.
  - unfold bpmFloored, flooredMinutes. simpl.
    rewrite Rmax_left by lra.
    apply (Math_round_eq 5). lra.
Qed.

(** C1, amended. On the measured path the blink rate reported for a
    finished blink session is blinkCount / elapsedMinutes rounded to an
    integer, with elapsedMinutes the elapsed seconds divided by 60 and
    replaced by 1 only when no time has elapsed: the report shows an
    integer at most one half away from that quotient, which is its
    [Math.round] unless the quotient lies exactly halfway between two
    integers (there the floating-point quotient decides between the two
    neighbours).  The quotient is the rate with the elapsed time floored
    at one minute when nothing or at least 60 seconds elapsed, and after
    0 or exactly 60 seconds the report shows the blink count itself. *)
Theorem measured_blink_rate :
  forall (props : Props) (s : State),
    mode props = REAL ->
    exerciseType props = BLINK_TRAINING ->
    isFinished s = true ->
    let elapsed := (durationSeconds props - timeLeft s)%Z in
    let rate := if (elapsed =? 0)%Z then IZR (sessionBlinks s)
                else IZR (sessionBlinks s) * 60 / IZR elapsed in
    exists (a : SessionAnalysis) (bpm : Z),
      analysis props s = Some a
      /\ clinicalValue a = JS.Fin (IZR bpm)
      /\ Rabs (IZR bpm - rate) <= / 2
      /\ ((forall k : Z, rate <> IZR k + / 2) ->
          IZR bpm = JS.Math_round rate)
      /\ (elapsed = 0%Z \/ (60 <= elapsed)%Z ->
          rate = IZR (sessionBlinks s) / flooredMinutes elapsed)
      /\ (elapsed = 0%Z \/ elapsed = 60%Z -> bpm = sessionBlinks s).
Proof.
  intros props s Hm He Hfin elapsed rate.
  assert (Hz : elapsed <> 0%Z -> IZR elapsed <> 0).
  { intros H E. apply H. now apply eq_IZR. }
  assert (Hrate : IZR (sessionBlinks s) / durationMins props s = rate).
  { subst rate. destruct (Z.eqb_spec elapsed 0) as [E | E].
    - rewrite durationMins_zero by exact E. lra.
    - rewrite durationMins_nonzero by exact E. fold elapsed.
      field. now apply Hz. }
  destruct (Math_round_nearest rate) as (Hround & Hnear).
  exists (getDetailedAnalysis props s), (Zfloor (rate + / 2)).
  unfold analysis. rewrite Hfin. split; [reflexivity |].
  rewrite (measured_bpm props s Hm He), Hrate, Hround.
  split; [reflexivity |]. split; [exact Hnear |].
  split; [| split].
  - intro Hmid. now apply nearest_is_round.
  - intros [E | E]; subst rate; unfold flooredMinutes.
    + rewrite E. simpl. rewrite Rmax_left by lra. lra.
    + destruct (Z.eqb_spec elapsed 0) as [E0 | E0]; [lia |].
      apply IZR_le in E. rewrite Rmax_right by lra.
      field. now apply Hz.
  - intro E. apply (nearest_unique _ _ rate Hnear).
    subst rate. destruct E as [E | E]; rewrite E; simpl; lra.
Qed.

(** Seven blinks counted over 45 seconds: the quotient 9.33 is shown as
    9. *)
Lemma measured_blink_rate_witness :
  exists a : SessionAnalysis,
    analysis (mkProps REAL BLINK_TRAINING 45 HEALTHY)
      (finishedSession 0 7 7 100) = Some a
    /\ clinicalValue a = JS.Fin 9.
Proof.
  destruct (measured_blink_rate (mkProps REAL BLINK_TRAINING 45 HEALTHY)
              (finishedSession 0 7 7 100) eq_refl eq_refl eq_refl)
    as (a & bpm & Ha & Hval & Hnear & _).
  exists a. split; [exact Ha |].
  rewrite Hval. do 2 f_equal.
  apply (nearest_unique _ _ _ Hnear). simpl. lra.
Defined.

Section GazeAccuracy.

Variables (props : Props) (s : State).
Hypothesis measured : mode props = REAL.
Hypothesis follow_dot : exerciseType props = FOLLOW_DOT.

Let elapsed : Z := (durationSeconds props - timeLeft s)%Z.

(** The measured accuracy when some time has elapsed: the fallback to 0
    is then the identity. *)
Lemma measured_accuracy :
  elapsed <> 0%Z ->
  clinicalValue (getDetailedAnalysis props s)
  = JS.Fin (gazeAccuracy (score s) elapsed).
Proof.
  intro Hne. unfold getDetailedAnalysis. rewrite measured, follow_dot. simpl.
  fold elapsed.
  rewrite div_nonzero.
  - simpl. unfold gazeAccuracy.
    destruct (Req_dec_T
                (Rmin 100
                   (JS.Math_round
                      (IZR (score s) / (IZR elapsed * 10) * 100))) 0)
      as [E | E]; [now rewrite E | reflexivity].
  - intro E. apply Hne. apply eq_IZR. lra.
Qed.


(** With no elapsed time the quotient is not a number or infinite, and the
    report shows 0 for a zero score and 100 for a positive one. *)
Lemma measured_accuracy_no_time :
  elapsed = 0%Z ->
  clinicalValue (getDetailedAnalysis props s)
  = if (0 <? score s)%Z then JS.Fin 100
    else if (score s <? 0)%Z then JS.NInf else JS.Fin 0.
Proof.
  intro Hz. unfold getDetailedAnalysis. rewrite measured, follow_dot. simpl.
  fold elapsed. rewrite Hz. unfold JS.div.
  destruct (Req_dec_T (0 * 10) 0) as [_ | E]; [| lra].
  destruct (Z.ltb_spec 0 (score s)) as [Hp | Hp].
  - apply IZR_lt in Hp.
    destruct (Rlt_dec 0 (IZR (score s))); [| lra]. simpl.
    destruct (Req_dec_T 100 0); [lra | reflexivity].
  - apply IZR_le in Hp.
    destruct (Rlt_dec 0 (IZR (score s))); [lra |].
    destruct (Z.ltb_spec (score s) 0) as [Hn | Hn].
    + apply IZR_lt in Hn.
      destruct (Rlt_dec (IZR (score s)) 0); [reflexivity | lra].
    + apply IZR_le in Hn.
      destruct (Rlt_dec (IZR (score s)) 0); [lra | reflexivity].
Qed.

End GazeAccuracy.




(** ** Ranges of the frame fields and of the stability score *)

Section Ranges.

Ltac split_minmax :=
  unfold JS.Math_max, JS.Math_min, Rmax, Rmin;
  repeat match goal with
         | |- context [Rle_dec ?a ?b] => destruct (Rle_dec a b)
         end.

Lemma simulateData_scores (demoProfile : DemoProfile) (rnd : Draws)
    (time : R) :
  scoresInRange (simulateData demoProfile rnd time).
Proof.
  unfold scoresInRange, unit_interval.
  cbv beta zeta iota delta
    [simulateData confidence eyeOpennessLeft eyeOpennessRight mouthSymmetry].
  pose proof (SIN_bound (time / 50)) as Htremor.
  match goal with
  | |- context [JS.Math_max 0.1
                  (0.94 - JS.Math_max 0 ?g - JS.Math_max 0 ?p + _)] =>
      generalize g p
  end.
  intros gazeEffect pitchEffect.
  match goal with
  | |- context [if ?b then 0.02 else _] => destruct b
  end;
    destruct demoProfile; unfold asymmetry; split_minmax; lra.
Qed.

Lemma with_confidence_scores (f : FaceData) (c : R) :
  scoresInRange f -> 0 <= c <= 1 -> scoresInRange (with_confidence f c).
Proof.
  unfold scoresInRange, unit_interval. simpl. tauto.
Qed.

Lemma blendshapeScore_unit (blendshapes : option (list Category))
    (name : string) :
  match blendshapes with
  | Some cs => Forall (fun c => unit_interval (AiEngine.score c)) cs
  | None => True
  end ->
  unit_interval (blendshapeScore blendshapes name).
Proof.
  unfold blendshapeScore, unit_interval.
  destruct blendshapes as [cs |]; [| intros _; lra].
  intro Hall.
  destruct (find (fun c => String.eqb (categoryName c) name) cs)
    as [c |] eqn:Hfind; [| lra].
  apply find_some in Hfind. destruct Hfind as [Hin _].
  rewrite Forall_forall in Hall. exact (Hall c Hin).
Qed.

Lemma categories_normalized (results : Results) :
  scoresNormalized results ->
  match categories results with
  | Some cs => Forall (fun c => unit_interval (AiEngine.score c)) cs
  | None => True
  end.
Proof.
  unfold scoresNormalized, categories.
  destruct (faceBlendshapes results) as [[| first others] |]; auto.
  intro H. now inversion H.
Qed.

Lemma faceFound_scores (prev : FaceData) (landmarks : FaceMesh)
    (results : Results) :
  scoresNormalized results ->
  scoresInRange (faceFound prev landmarks (categories results)).
Proof.
  intro Hn. apply categories_normalized in Hn.
  pose proof (blendshapeScore_unit (categories results) "eyeBlinkLeft" Hn)
    as Hl.
  pose proof (blendshapeScore_unit (categories results) "eyeBlinkRight" Hn)
    as Hr.
  unfold scoresInRange, unit_interval in *. simpl. lra.
Qed.

(** Every frame the detector adapter returns keeps the ranges, whichever
    branch is taken. *)
Lemma processFrame_scores (cam : Camera) (t : Tracker) :
  detectorContract cam ->
  scoresInRange (prevDataRef t) ->
  scoresInRange (fst (processFrame cam t))
  /\ prevDataRef (snd (processFrame cam t)) = prevDataRef t.
Proof.
  intros Hc Hprev. unfold processFrame, detectorContract in *.
  assert (H0 : scoresInRange (with_confidence (prevDataRef t) 0)).
  { apply with_confidence_scores; [assumption | lra]. }
  destruct (faceLandmarker cam); [| now split].
  destruct (videoRef cam) as [video |]; [| now split].
  destruct (readyState video <? 2)%Z; [now split |].
  destruct (Req_dec_T (currentTime video) (lastVideoTime t)); [now split |].
  destruct (detectForVideo cam) as [| results]; [now split |].
  destruct (faceLandmarks results) as [| landmarks others]; simpl.
  - split; [| reflexivity].
    unfold scoresInRange, unit_interval in *. simpl. lra.
  - split; [| reflexivity]. now apply faceFound_scores.
Qed.

Lemma loop_in_range (mode : RehabMode) (demoProfile : DemoProfile)
    (cam : Camera) (rnd : Draws) (time : R) (t : Tracker) :
  detectorContract cam ->
  trackerInRange t ->
  trackerInRange (loop mode demoProfile cam rnd time t).
Proof.
  intros Hc [Hface Hprev]. unfold loop.
  destruct mode.
  - split; simpl; apply simulateData_scores.
  - destruct (JS.ltb (time - lastProcessTimeRef t) 32); [now split |].
    destruct (processFrame_scores cam (set_lastProcessTime t time) Hc Hprev)
      as [Hdata _].
    destruct (processFrame cam (set_lastProcessTime t time)) as [data t2].
    split; exact Hdata.
Qed.

Lemma stability_step_in_range (h : R) :
  0 <= h <= 100 ->
  0 <= JS.Math_max 0 (h - 0.2) <= 100
  /\ 0 <= JS.Math_min 100 (h + 0.05) <= 100.
Proof. intro H. split; split_minmax; lra. Qed.

Lemma step_in_range (props : Props) (s : State) (e : Event) :
  eventContract e -> sessionInRange s -> sessionInRange (step props s e).
Proof.
  intros He [Ht Hh].
  destruct e as [cam rnd time | | rx ry | | | p]; simpl.
  - unfold animationFrame.
    destruct (isPlaying s) eqn:Hp; [| now split].
    unfold syncBlinks. simpl.
    split; [| assumption]. simpl. now apply loop_in_range.
  - unfold timerTick.
    destruct (negb (isPlaying s) || isFinished s); [now split |].
    destruct (timeLeft s <=? 1)%Z; now split.
  - unfold gameLoop.
    destruct (negb (isPlaying s) || isFinished s); [now split |].
    destruct (stability_step_in_range _ Hh) as [Hdec Hinc].
    destruct (exerciseType props); split; simpl; try assumption.
    destruct (JS.gtb _ 5); assumption.
  - unfold togglePlay.
    destruct (isFinished s).
    + split; simpl; [exact Ht | lra].
    + unfold syncBlinks. simpl.
      destruct (negb (isPlaying s)); now split.
  - destruct (isFinished s); [| now split].
    split; simpl; [exact Ht | lra].
  - now split.
Qed.

Lemma steps_in_range (props : Props) (events : list Event) (s : State) :
  Forall eventContract events ->
  sessionInRange s ->
  sessionInRange (fold_left (step props) events s).
Proof.
  revert s. induction events as [| e es IH]; intros s Hall Hs; [exact Hs |].
  inversion Hall as [| e' es' He Hes]; subst.
  simpl. apply IH; [assumption |]. now apply step_in_range.
Qed.

Lemma initial_in_range (props : Props) : sessionInRange (initialState props).
Proof.
  unfold sessionInRange, trackerInRange, scoresInRange, unit_interval.
  simpl. lra.
Qed.

End Ranges.

(** C4. Whatever happens to a mounted exercise (animation frames from
    either source, timer and scoring ticks, pause, restart, profile
    changes), as long as the detector reports blendshape scores within
    the unit interval, the published frame has confidence,
    eyeOpennessLeft, eyeOpennessRight and mouthSymmetry in [0,1] and
    headStabilityScore is in [0,100]; every frame of the synthetic
    generator and every frame of the detector adapter is within these
    ranges, and each decrement and increment of the stability score is
    clamped to [0,100]. *)
Theorem frame_and_stability_ranges :
  forall (props : Props) (events : list Event),
    Forall eventContract events ->
    sessionInRange (run props events)
    /\ (forall (demoProfile : DemoProfile) (rnd : Draws) (time : R),
          scoresInRange (simulateData demoProfile rnd time))
    /\ (forall (cam : Camera) (t : Tracker),
          detectorContract cam ->
          scoresInRange (prevDataRef t) ->
          scoresInRange (fst (processFrame cam t)))
    /\ (forall h : R,
          0 <= h <= 100 ->
          0 <= JS.Math_max 0 (h - 0.2) <= 100
          /\ 0 <= JS.Math_min 100 (h + 0.05) <= 100).
Proof.
  intros props events Hall. split; [| split; [| split]].
  - unfold run. apply steps_in_range; [exact Hall | apply initial_in_range].
  - apply simulateData_scores.
  - intros cam t Hc Hprev. now apply processFrame_scores.
  - apply stability_step_in_range.
Qed.

(** A head-stability session on the camera: play, one frame of a blinking
    face, one scoring tick. *)
Lemma frame_and_stability_ranges_witness :
  Forall eventContract
    [TogglePlay;
     AnimationFrame
       (readyCamera 0.04 (blinkingFace (meshWithNose (mkPoint 0.75 0.5))))
       evenDraws 1000;
     GameTick 0.3 0.6]
  /\ sessionInRange
       (run (mkProps REAL HEAD_STABILITY 60 HEALTHY)
          [TogglePlay;
           AnimationFrame
             (readyCamera 0.04
                (blinkingFace (meshWithNose (mkPoint 0.75 0.5))))
             evenDraws 1000;
           GameTick 0.3 0.6]).
Proof.
  assert (Hall : Forall eventContract
                   [TogglePlay;
                    AnimationFrame
                      (readyCamera 0.04
                         (blinkingFace (meshWithNose (mkPoint 0.75 0.5))))
                      evenDraws 1000;
                    GameTick 0.3 0.6]).
  { repeat constructor; simpl; lra. }
  split; [exact Hall |].
  apply (frame_and_stability_ranges
           (mkProps REAL HEAD_STABILITY 60 HEALTHY) _ Hall).
Defined.

(** ** Gaze range *)

Section Trigonometry.

Lemma INR_fact_S (n : nat) : INR (fact (S n)) = INR (S n) * INR (fact n).
Proof. rewrite fact_simpl, mult_INR. reflexivity. Qed.

Ltac expand_fact :=
  repeat rewrite INR_fact_S;
  change (INR (fact 0)) with 1;
  repeat rewrite S_INR; change (INR 0) with 0.

Lemma cos_approx_5 (a : R) :
  cos_approx a 5
  = 1 - a ^ 2 / 2 + a ^ 4 / 24 - a ^ 6 / 720 + a ^ 8 / 40320
    - a ^ 10 / 3628800.
Proof.
  unfold cos_approx. cbn [sum_f_R0]. unfold cos_term.
  cbn [Nat.mul Nat.add]. expand_fact. field.
Qed.

Lemma cos_approx_4 (a : R) :
  cos_approx a 4
  = 1 - a ^ 2 / 2 + a ^ 4 / 24 - a ^ 6 / 720 + a ^ 8 / 40320.
Proof.
  unfold cos_approx. cbn [sum_f_R0]. unfold cos_term.
  cbn [Nat.mul Nat.add]. expand_fact. field.
Qed.

Lemma sin_approx_3 (a : R) :
  sin_approx a 3 = a - a ^ 3 / 6 + a ^ 5 / 120 - a ^ 7 / 5040.
Proof.
  unfold sin_approx. cbn [sum_f_R0]. unfold sin_term.
  cbn [Nat.mul Nat.add]. expand_fact. field.
Qed.

Lemma cos_below_half_pi : 0 < cos 1.57.
Proof.
  pose proof (pre_cos_bound 1.57 2 ltac:(lra) ltac:(lra)) as [H _].
  change (2 * 2 + 1)%nat with 5%nat in H. rewrite cos_approx_5 in H. lra.
Qed.

Lemma cos_above_half_pi : cos 1.575 < 0.
Proof.
  pose proof (pre_cos_bound 1.575 1 ltac:(lra) ltac:(lra)) as [_ H].
  change (2 * (1 + 1))%nat with 4%nat in H. rewrite cos_approx_4 in H. lra.
Qed.

Lemma PI_bounds : 3.14 < PI < 3.15.
Proof.
  split.
  - pose proof (PI2_lower_bound 1.57 ltac:(lra) cos_below_half_pi). lra.
  - destruct (Rle_dec 1.575 (PI / 2)) as [H | H]; [| lra].
    pose proof (cos_ge_0 1.575 ltac:(pose proof PI_RGT_0; lra) H).
    pose proof cos_above_half_pi. lra.
Qed.

Lemma sin_lower (a : R) :
  0 <= a <= 4 -> a - a ^ 3 / 6 + a ^ 5 / 120 - a ^ 7 / 5040 <= sin a.
Proof.
  intros [H0 H4]. rewrite <- sin_approx_3.
  exact (proj1 (pre_sin_bound a 1 H0 H4)).
Qed.

(** The slow yaw wave at 7 seconds. *)
Lemma sin_7000_4000 : 0.98 <= sin (7000 / 4000).
Proof. pose proof (sin_lower (7000 / 4000) ltac:(lra)). lra. Qed.

(** The yaw tremor at 7 seconds: one full turn past an angle between
    1.47 and a right angle. *)
Lemma sin_7000_900 : 0.99 <= sin (7000 / 900).
Proof.
  pose proof PI_bounds as [Hl Hu].
  replace (7000 / 900) with (7000 / 900 - 2 * PI + 2 * INR 1 * PI)
    by (simpl; lra).
  rewrite sin_period.
  pose proof (sin_lower 1.47 ltac:(lra)).
  pose proof (sin_incr_1 1.47 (7000 / 900 - 2 * PI)
                ltac:(lra) ltac:(lra) ltac:(lra) ltac:(lra) ltac:(lra)).
  lra.
Qed.

(** The saccade target of the fourth interval: 59 full turns past an
    angle between minus a right angle and -0.17. *)
Lemma sin_seed_3 : sin (3 * 123.45) <= -0.169.
Proof.
  pose proof PI_bounds as [Hl Hu].
  replace (3 * 123.45) with (3 * 123.45 - 118 * PI + 2 * INR 59 * PI).
  2:{ rewrite INR_IZR_INZ. simpl. lra. }
  rewrite sin_period.
  pose proof (sin_lower 0.17 ltac:(lra)).
  pose proof (sin_incr_1 (3 * 123.45 - 118 * PI) (Ropp 0.17)
                ltac:(lra) ltac:(lra) ltac:(lra) ltac:(lra) ltac:(lra))
    as Hi.
  rewrite sin_neg in Hi. lra.
Qed.

End Trigonometry.

Section SaccadeClock.

Lemma floor_7000_1800 : JS.Math_floor (7000 / 1800) = 3.
Proof. unfold JS.Math_floor. rewrite (Zfloor_eq 3); [reflexivity | lra]. Qed.

Lemma rem_7000_1800 : JS.rem 7000 1800 = 1600.
Proof.
  unfold JS.rem, JS.trunc.
  destruct (Rle_dec 0 (7000 / 1800)); [| lra].
  rewrite (Zfloor_eq 3); lra.
Qed.

(** The remainder of a non-negative time lies within the interval. *)
Lemma rem_bounds (time interval : R) :
  0 <= time -> 0 < interval -> 0 <= JS.rem time interval < interval.
Proof.
  intros Ht Hi. unfold JS.rem, JS.trunc.
  assert (Hq : 0 <= time / interval).
  { apply Rmult_le_pos; [assumption |]. left. now apply Rinv_0_lt_compat. }
  destruct (Rle_dec 0 (time / interval)); [| contradiction].
  destruct (Zfloor_bound (time / interval)) as [Hl Hu].
  assert (E : time = time / interval * interval) by (field; lra).
  split; nra.
Qed.

(** The cubic ease-out stays between 0 and 1. *)
Lemma ease_bounds (time interval : R) :
  0 <= time -> 0 < interval ->
  0 <= 1 - (1 - JS.Math_min 1 (JS.rem time interval / 250)) ^ 3 <= 1.
Proof.
  intros Ht Hi. destruct (rem_bounds time interval Ht Hi) as [Hr _].
  assert (Hp : 0 <= JS.Math_min 1 (JS.rem time interval / 250) <= 1).
  { unfold JS.Math_min, Rmin.
    destruct (Rle_dec 1 (JS.rem time interval / 250)); lra. }
  set (u := 1 - JS.Math_min 1 (JS.rem time interval / 250)) in *.
  assert (Hu : 0 <= u <= 1) by (unfold u; lra).
  assert (Hu2 : 0 <= u * u <= 1) by nra.
  simpl. nra.
Qed.

(** Easing between two targets of amplitude [m] stays within [m]. *)
Lemma scan_bounds (prevTarget target ease m : R) :
  - m <= prevTarget <= m -> - m <= target <= m -> 0 <= ease <= 1 ->
  - m <= prevTarget + (target - prevTarget) * ease <= m.
Proof. intros Hp Ht He. split; nra. Qed.

End SaccadeClock.

(** C3, at its failing input. In the Low profile, 7 seconds into the
    simulation, the synthetic generator returns a gazeX below -1 whatever
    the random source yields: the head yaw exceeds 37 degrees there and
    the vestibulo-ocular term alone pushes the gaze past the range. *)
Theorem low_profile_gaze_leaves_range :
  forall rnd : Draws,
    0 <= jitterDrawX rnd < 1 ->
    gazeX (simulateData LOW rnd 7000) < -1.
Proof.
  intros rnd Hdraw.
  cbv beta zeta iota delta
    [simulateData gazeX headStabilityMult gazeJitter SACCADE_INTERVAL].
  rewrite floor_7000_1800, rem_7000_1800.
  rewrite (gtb_true 0.15 0) by lra.
  unfold JS.Math_min. rewrite Rmin_left by lra.
  pose proof sin_7000_4000. pose proof sin_7000_900. pose proof sin_seed_3.
  pose proof (SIN_bound ((3 - 1) * 123.45)).
  lra.
Qed.

Lemma low_profile_gaze_leaves_range_witness :
  0 <= jitterDrawX evenDraws < 1
  /\ gazeX (simulateData LOW evenDraws 7000) < -1.
Proof.
  assert (H : 0 <= jitterDrawX evenDraws < 1) by (simpl; lra).
  split; [exact H |].
  apply (low_profile_gaze_leaves_range evenDraws H).
Defined.

(** The gaze of the synthetic generator does stay within [-1,1] in the
    Healthy and High profiles, at every non-negative time. *)
Lemma steady_profiles_gaze_in_range (demoProfile : DemoProfile)
    (rnd : Draws) (time : R) :
  demoProfile <> LOW ->
  0 <= time ->
  drawsInRange rnd ->
  gazeInRange (simulateData demoProfile rnd time).
Proof.
  intros Hprofile Htime (HdX & HdY & _).
  assert (Hinterval : 0 < SACCADE_INTERVAL demoProfile).
  { destruct demoProfile; simpl; lra. }
  pose proof (ease_bounds time _ Htime Hinterval) as Hease.
  unfold gazeInRange.
  cbv beta zeta iota delta [simulateData gazeX gazeY].
  set (ease := 1 - (1 - JS.Math_min 1 _) ^ 3) in *.
  set (seed := JS.Math_floor _).
  pose proof (SIN_bound (time / 4000)). pose proof (SIN_bound (time / 900)).
  pose proof (COS_bound (time / 5000)). pose proof (SIN_bound (time / 1200)).
  pose proof (SIN_bound ((seed - 1) * 123.45)).
  pose proof (SIN_bound (seed * 123.45)).
  pose proof (COS_bound ((seed - 1) * 678.90)).
  pose proof (COS_bound (seed * 678.90)).
  pose proof (scan_bounds (sin ((seed - 1) * 123.45) * 0.5)
                (sin (seed * 123.45) * 0.5) ease 0.5
                ltac:(lra) ltac:(lra) Hease) as HscanX.
  pose proof (scan_bounds (cos ((seed - 1) * 678.90) * 0.3)
                (cos (seed * 678.90) * 0.3) ease 0.3
                ltac:(lra) ltac:(lra) Hease) as HscanY.
  destruct demoProfile; [| contradiction |];
    unfold gazeJitter, headStabilityMult.
  - rewrite (gtb_false 0 0) by lra. lra.
  - rewrite (gtb_true 0.02 0) by lra. lra.
Qed.

(** The detector adapter keeps the gaze within [-1,1] when the nose
    landmark is a normalised image point and the previous frame is in
    range. *)
Lemma faceFound_gaze_in_range (prev : FaceData) (landmarks : FaceMesh)
    (blendshapes : option (list Category)) :
  normalized (landmarks 1%nat) ->
  gazeInRange prev ->
  gazeInRange (faceFound prev landmarks blendshapes).
Proof.
  unfold normalized, unit_interval, gazeInRange, faceFound, lerp,
    rawGazeX, rawGazeY, POSE_SMOOTHING.
  simpl. lra.
Qed.


(** * Further properties of the code *)

(** ** Interpolation and the blink decision *)

Section Landmarks.

Lemma lerp_unit (a b f : R) :
  unit_interval a -> unit_interval b -> 0 <= f <= 1 ->
  unit_interval (lerp a b f).
Proof. unfold unit_interval, lerp. intros Ha Hb Hf. split; nra. Qed.

Lemma lerpPoint_normalized (p q : Point) (f : R) :
  normalized p -> normalized q -> 0 <= f <= 1 ->
  normalized (lerpPoint p q f).
Proof.
  intros [Hpx Hpy] [Hqx Hqy] Hf. split; simpl; now apply lerp_unit.
Qed.

Lemma smoothEye_normalized (prev : option EyeLandmarks)
    (curr : EyeLandmarks) (f : R) :
  match prev with Some e => eyeNormalized e | None => True end ->
  eyeNormalized curr -> 0 <= f <= 1 ->
  eyeNormalized (smoothEye prev curr f).
Proof.
  intros Hprev Hcurr Hf. destruct prev as [e |]; [| exact Hcurr].
  destruct Hprev as (H1 & H2 & H3 & H4 & H5).
  destruct Hcurr as (G1 & G2 & G3 & G4 & G5).
  repeat split; simpl; apply lerp_unit; unfold normalized in *; tauto.
Qed.

End Landmarks.

(** X2. The blink decision does not depend on which eye is which, and its
    per-eye conditions are implied by the others: a blink is reported
    exactly when the average score exceeds 0.5, or exceeds 0.2 with the
    two scores less than 0.2 apart. *)
Theorem blink_decision_symmetric :
  forall l r : R,
    isBlinking l r = isBlinking r l
    /\ isBlinking l r
       = (JS.gtb ((l + r) / 2) 0.5
          || JS.gtb ((l + r) / 2) 0.2 && JS.ltb (Rabs (l - r)) 0.2).
Proof.
  intros l r.
  unfold isBlinking, JS.gtb, JS.ltb, JS.Math_abs, Rabs.
  destruct (Rcase_abs (l - r)); destruct (Rcase_abs (r - l));
    repeat match goal with
           | |- context [Rlt_dec ?a ?b] => destruct (Rlt_dec a b)
           end;
    simpl; split; try reflexivity; exfalso; lra.
Qed.

(** ** The detector adapter and the scheduler *)

Section Scheduler.

Lemma processFrame_keeps_process_time (cam : Camera) (t : Tracker) :
  lastProcessTimeRef (snd (processFrame cam t)) = lastProcessTimeRef t.
Proof.
  unfold processFrame.
  destruct (faceLandmarker cam); [| reflexivity].
  destruct (videoRef cam) as [video |]; [| reflexivity].
  destruct (readyState video <? 2)%Z; [reflexivity |].
  destruct (Req_dec_T (currentTime video) (lastVideoTime t)); [reflexivity |].
  destruct (detectForVideo cam) as [| results]; [reflexivity |].
  destruct (faceLandmarks results); reflexivity.
Qed.

(** A throttled tick changes nothing; any other tick records its time. *)
Lemma loop_process_time (mode : RehabMode) (demoProfile : DemoProfile)
    (cam : Camera) (rnd : Draws) (time : R) (t : Tracker) :
  if processes mode t time
  then lastProcessTimeRef (loop mode demoProfile cam rnd time t) = time
  else loop mode demoProfile cam rnd time t = t.
Proof.
  unfold processes, loop. destruct mode; [reflexivity |].
  destruct (JS.ltb (time - lastProcessTimeRef t) 32); simpl; [reflexivity |].
  pose proof (processFrame_keeps_process_time cam
                (set_lastProcessTime t time)) as H.
  destruct (processFrame cam (set_lastProcessTime t time)) as [data t2].
  exact H.
Qed.

(** A tick raises the blink counter by one or leaves it. *)
Lemma loop_count_step (mode : RehabMode) (demoProfile : DemoProfile)
    (cam : Camera) (rnd : Draws) (time : R) (t : Tracker) :
  (blinkCount t <= blinkCount (loop mode demoProfile cam rnd time t)
   <= blinkCount t + (if processes mode t time then 1 else 0))%Z.
Proof.
  pose proof (loop_process_time mode demoProfile cam rnd time t) as Hp.
  destruct (processes mode t time).
  - destruct (loop_delivers mode demoProfile cam rnd time t)
      as [E | (data & t' & E & _ & Hc)]; rewrite E; [lia |].
    simpl. rewrite Hc.
    destruct (blinkDetected data && negb (lastBlinkState t')); lia.
  - rewrite Hp. lia.
Qed.

Lemma loop_edgeConsistent (mode : RehabMode) (demoProfile : DemoProfile)
    (cam : Camera) (rnd : Draws) (time : R) (t : Tracker) :
  edgeConsistent t ->
  edgeConsistent (loop mode demoProfile cam rnd time t).
Proof.
  intro H.
  destruct (loop_delivers mode demoProfile cam rnd time t)
    as [E | (data & t' & E & _)]; rewrite E; [exact H | reflexivity].
Qed.

(** The adapter on a ready camera whose media time has not advanced. *)
Lemma processFrame_duplicate (cam : Camera) (t : Tracker) (video : Video) :
  faceLandmarker cam = true ->
  videoRef cam = Some video ->
  (2 <= readyState video)%Z ->
  currentTime video = lastVideoTime t ->
  processFrame cam t = (prevDataRef t, t).
Proof.
  intros Hm Hv Hr Hsame. unfold processFrame. rewrite Hm, Hv.
  destruct (Z.ltb_spec (readyState video) 2); [lia |].
  destruct (Req_dec_T (currentTime video) (lastVideoTime t));
    [reflexivity | contradiction].
Qed.

(** After the adapter ran on a ready camera, the media time it saw is
    the one it remembers. *)
Lemma processFrame_remembers_time (cam : Camera) (t : Tracker)
    (video : Video) :
  faceLandmarker cam = true ->
  videoRef cam = Some video ->
  (2 <= readyState video)%Z ->
  lastVideoTime (snd (processFrame cam t)) = currentTime video.
Proof.
  intros Hm Hv Hr. unfold processFrame. rewrite Hm, Hv.
  destruct (Z.ltb_spec (readyState video) 2); [lia |].
  destruct (Req_dec_T (currentTime video) (lastVideoTime t)) as [E | E];
    [now rewrite E |].
  destruct (detectForVideo cam) as [| results]; [reflexivity |].
  destruct (faceLandmarks results); reflexivity.
Qed.

Lemma loop_real_processed (demoProfile : DemoProfile) (cam : Camera)
    (rnd : Draws) (time : R) (t : Tracker) :
  32 <= time - lastProcessTimeRef t ->
  loop REAL demoProfile cam rnd time t
  = deliver (snd (processFrame cam (set_lastProcessTime t time)))
      (fst (processFrame cam (set_lastProcessTime t time))).
Proof.
  intro H. unfold loop. rewrite ltb_false by exact H.
  destruct (processFrame cam (set_lastProcessTime t time)); reflexivity.
Qed.

(** Unless a face is found, the adapter passes the previous blink flag on
    or clears it, and leaves the edge detector alone. *)
Lemma adapter_cases (cam : Camera) (t : Tracker) :
  (exists (results : Results) (landmarks : FaceMesh)
          (others : list FaceMesh),
      detectForVideo cam = Returns results
      /\ faceLandmarks results = landmarks :: others)
  \/ ((blinkDetected (fst (processFrame cam t))
       = blinkDetected (prevDataRef t)
       \/ blinkDetected (fst (processFrame cam t)) = false)
      /\ lastBlinkState (snd (processFrame cam t)) = lastBlinkState t
         /\ blinkCount (snd (processFrame cam t)) = blinkCount t).
Proof.
  pose proof (processFrame_keeps_edge_state cam t) as Hkeep.
  destruct (detectForVideo cam) as [| results] eqn:Hd.
  - right. split; [left | exact Hkeep].
    unfold processFrame. rewrite Hd.
    destruct (faceLandmarker cam); [| reflexivity].
    destruct (videoRef cam) as [video |]; [| reflexivity].
    destruct (readyState video <? 2)%Z; [reflexivity |].
    destruct (Req_dec_T (currentTime video) (lastVideoTime t)); reflexivity.
  - destruct (faceLandmarks results) as [| landmarks others] eqn:Hf.
    + right. split; [| exact Hkeep].
      unfold processFrame. rewrite Hd, Hf.
      destruct (faceLandmarker cam); [| now left].
      destruct (videoRef cam) as [video |]; [| now left].
      destruct (readyState video <? 2)%Z; [now left |].
      destruct (Req_dec_T (currentTime video) (lastVideoTime t));
        [now left | now right].
    + left. now exists results, landmarks, others.
Qed.

End Scheduler.

(** X3. The detector adapter never makes up measurements: the frame it
    returns is either built from a face mesh the detector returned for a
    new image, or carries exactly the pose, gaze, eyelid, symmetry and
    landmark values of the previous frame, with a confidence that is the
    previous one, 0 or 0.3. *)
Theorem adapter_reuses_previous_frame :
  forall (cam : Camera) (t : Tracker),
    let f := fst (processFrame cam t) in
    (exists (results : Results) (landmarks : FaceMesh)
            (others : list FaceMesh),
        detectForVideo cam = Returns results
        /\ faceLandmarks results = landmarks :: others
        /\ f = faceFound (prevDataRef t) landmarks (categories results))
    \/ (sameSignal f (prevDataRef t)
        /\ (confidence f = confidence (prevDataRef t)
            \/ confidence f = 0 \/ confidence f = 0.3)).
Proof.
  intros cam t f. subst f. unfold processFrame.
  assert (Hzero : sameSignal (with_confidence (prevDataRef t) 0)
                    (prevDataRef t)
                  /\ (confidence (with_confidence (prevDataRef t) 0)
                      = confidence (prevDataRef t)
                      \/ confidence (with_confidence (prevDataRef t) 0) = 0
                      \/ confidence (with_confidence (prevDataRef t) 0)
                         = 0.3)).
  { split; [repeat split | right; left; reflexivity]. }
  assert (Hsame : sameSignal (prevDataRef t) (prevDataRef t)
                  /\ (confidence (prevDataRef t) = confidence (prevDataRef t)
                      \/ confidence (prevDataRef t) = 0
                      \/ confidence (prevDataRef t) = 0.3)).
  { split; [repeat split | left; reflexivity]. }
  destruct (faceLandmarker cam); [| now right].
  destruct (videoRef cam) as [video |]; [| now right].
  destruct (readyState video <? 2)%Z; [now right |].
  destruct (Req_dec_T (currentTime video) (lastVideoTime t)); [now right |].
  destruct (detectForVideo cam) as [| results]; [now right |].
  destruct (faceLandmarks results) as [| landmarks others] eqn:Hface.
  - right. simpl. split; [repeat split | right; right; reflexivity].
  - left. exists results, landmarks, others. now repeat split.
Qed.

(** X4. A camera tick that shows the same media time as the tick before
    it publishes the same frame again and leaves the blink counter as it
    is: a blink held over a repeated image is not counted twice. *)
Theorem duplicate_image_republishes_frame :
  forall (demoProfile : DemoProfile) (cam1 cam2 : Camera)
         (video1 video2 : Video) (rnd1 rnd2 : Draws) (time1 time2 : R)
         (t : Tracker),
    faceLandmarker cam1 = true -> videoRef cam1 = Some video1 ->
    (2 <= readyState video1)%Z ->
    faceLandmarker cam2 = true -> videoRef cam2 = Some video2 ->
    (2 <= readyState video2)%Z ->
    currentTime video2 = currentTime video1 ->
    32 <= time1 - lastProcessTimeRef t ->
    32 <= time2 - time1 ->
    let t1 := loop REAL demoProfile cam1 rnd1 time1 t in
    let t2 := loop REAL demoProfile cam2 rnd2 time2 t1 in
    faceData t2 = faceData t1 /\ blinkCount t2 = blinkCount t1.
Proof.
  intros demoProfile cam1 cam2 video1 video2 rnd1 rnd2 time1 time2 t
         Hm1 Hv1 Hr1 Hm2 Hv2 Hr2 Hsame Hgap1 Hgap2 t1 t2.
  assert (E1 : t1 = deliver
                      (snd (processFrame cam1 (set_lastProcessTime t time1)))
                      (fst (processFrame cam1 (set_lastProcessTime t time1))))
    by (apply loop_real_processed; exact Hgap1).
  assert (Htime : lastProcessTimeRef t1 = time1).
  { rewrite E1. simpl. apply processFrame_keeps_process_time. }
  assert (Hvideo : lastVideoTime t1 = currentTime video1).
  { rewrite E1. simpl.
    now apply (processFrame_remembers_time cam1 _ video1). }
  assert (Hedge : lastBlinkState t1 = blinkDetected (faceData t1))
    by (rewrite E1; reflexivity).
  assert (Hprev : prevDataRef t1 = faceData t1)
    by (rewrite E1; reflexivity).
  subst t2. rewrite loop_real_processed by (rewrite Htime; exact Hgap2).
  rewrite (processFrame_duplicate cam2 (set_lastProcessTime t1 time2) video2)
    by (try assumption; simpl; congruence).
  simpl. rewrite Hprev, Hedge. split; [reflexivity |].
  destruct (blinkDetected (faceData t1)); reflexivity.
Qed.

Lemma duplicate_image_republishes_frame_witness :
  blinkCount
    (loop REAL HEALTHY
       (readyCamera 0.04 (blinkingFace (meshWithNose (mkPoint 0.75 0.5))))
       evenDraws 1040
       (loop REAL HEALTHY
          (readyCamera 0.04
             (blinkingFace (meshWithNose (mkPoint 0.75 0.5))))
          evenDraws 1000 initialTracker))
  = blinkCount
      (loop REAL HEALTHY
         (readyCamera 0.04 (blinkingFace (meshWithNose (mkPoint 0.75 0.5))))
         evenDraws 1000 initialTracker).
Proof.
  apply (duplicate_image_republishes_frame HEALTHY
           (readyCamera 0.04 (blinkingFace (meshWithNose (mkPoint 0.75 0.5))))
           (readyCamera 0.04 (blinkingFace (meshWithNose (mkPoint 0.75 0.5))))
           {| readyState := 4; currentTime := 0.04 |}
           {| readyState := 4; currentTime := 0.04 |}
           evenDraws evenDraws 1000 1040 initialTracker);
    try reflexivity; simpl; try lia; lra.
Defined.

(** X5. The throttle of the camera path.  A tick less than 32 ms after
    the last processed one is throttled and changes nothing in the
    tracker; any other tick is processed: it records its time and
    publishes the adapter's frame.  Over any run of ticks, 32 ms times
    the number of processed ticks therefore never exceeds the time
    between the last processed tick and the start. *)
Theorem throttle_bounds_processed_ticks :
  forall (demoProfile : DemoProfile) (ticks : list Tick) (t : Tracker),
    32 * INR (processedCount REAL demoProfile ticks t)
    <= lastProcessTimeRef (fold_left (loopTick REAL demoProfile) ticks t)
       - lastProcessTimeRef t
    /\ (forall k : Tick,
          (processes REAL t (tickTime k) = false
           <-> tickTime k - lastProcessTimeRef t < 32)
          /\ (processes REAL t (tickTime k) = false ->
              loopTick REAL demoProfile t k = t)
          /\ (processes REAL t (tickTime k) = true ->
              32 <= tickTime k - lastProcessTimeRef t
              /\ lastProcessTimeRef (loopTick REAL demoProfile t k)
                 = tickTime k
              /\ loopTick REAL demoProfile t k
                 = deliver
                     (snd (processFrame (tickCamera k)
                             (set_lastProcessTime t (tickTime k))))
                     (fst (processFrame (tickCamera k)
                             (set_lastProcessTime t (tickTime k)))))).
Proof.
  intros demoProfile ticks t. split.
  - revert t. induction ticks as [| k ks IH]; intro t.
    + simpl. lra.
    + cbn [processedCount fold_left].
      specialize (IH (loopTick REAL demoProfile t k)).
      pose proof (loop_process_time REAL demoProfile (tickCamera k)
                    (tickDraws k) (tickTime k) t) as Hp.
      fold (loopTick REAL demoProfile t k) in Hp.
      rewrite plus_INR.
      destruct (processes REAL t (tickTime k)) eqn:Hproc.
      * unfold processes, JS.ltb in Hproc.
        destruct (Rlt_dec (tickTime k - lastProcessTimeRef t) 32);
          [discriminate |].
        simpl INR. lra.
      * rewrite Hp in *. simpl INR. lra.
  - intro k.
    pose proof (loop_process_time REAL demoProfile (tickCamera k)
                  (tickDraws k) (tickTime k) t) as Hp.
    fold (loopTick REAL demoProfile t k) in Hp.
    assert (Hspec : processes REAL t (tickTime k) = false
                    <-> tickTime k - lastProcessTimeRef t < 32).
    { unfold processes, JS.ltb.
      destruct (Rlt_dec (tickTime k - lastProcessTimeRef t) 32);
        simpl; split; intro H; try assumption; try reflexivity;
        try discriminate; contradiction. }
    split; [exact Hspec |]. split.
    + intro Hproc. rewrite Hproc in Hp. exact Hp.
    + intro Hproc. rewrite Hproc in Hp.
      assert (Hgap : 32 <= tickTime k - lastProcessTimeRef t).
      { destruct (Rlt_dec (tickTime k - lastProcessTimeRef t) 32)
          as [Hlt | Hge]; [| lra].
        apply Hspec in Hlt. rewrite Hlt in Hproc. discriminate. }
      split; [exact Hgap |]. split; [exact Hp |].
      unfold loopTick. now apply loop_real_processed.
Qed.

(** X6. Over any run of ticks in either mode the blink counter never
    decreases, and it grows by at most one per processed tick. *)
Theorem blink_counter_monotone :
  forall (mode : RehabMode) (demoProfile : DemoProfile) (ticks : list Tick)
         (t : Tracker),
    (blinkCount t
     <= blinkCount (fold_left (loopTick mode demoProfile) ticks t)
     <= blinkCount t
        + Z.of_nat (processedCount mode demoProfile ticks t))%Z.
Proof.
  intros mode demoProfile ticks. induction ticks as [| k ks IH]; intro t.
  - simpl. lia.
  - cbn [processedCount fold_left].
    specialize (IH (loopTick mode demoProfile t k)).
    pose proof (loop_count_step mode demoProfile (tickCamera k)
                  (tickDraws k) (tickTime k) t) as Hstep.
    fold (loopTick mode demoProfile t k) in Hstep.
    destruct (processes mode t (tickTime k)); lia.
Qed.

(** X7. On the camera path a tick raises the blink counter only when the
    detector returned a face for it, and then by exactly one; the
    agreement between the edge detector's memory and the held frame that
    this rests on is kept by every tick. *)
Theorem blink_counted_only_on_found_face :
  forall (mode : RehabMode) (demoProfile : DemoProfile) (cam : Camera)
         (rnd : Draws) (time : R) (t : Tracker),
    edgeConsistent t ->
    edgeConsistent (loop mode demoProfile cam rnd time t)
    /\ (mode = REAL ->
        blinkCount (loop mode demoProfile cam rnd time t) <> blinkCount t ->
        blinkCount (loop mode demoProfile cam rnd time t)
        = (blinkCount t + 1)%Z
        /\ exists (results : Results) (landmarks : FaceMesh)
                  (others : list FaceMesh),
             detectForVideo cam = Returns results
             /\ faceLandmarks results = landmarks :: others).
Proof.
  intros mode demoProfile cam rnd time t Hedge.
  split; [now apply loop_edgeConsistent |].
  intros -> Hchanged.
  pose proof (loop_count_step REAL demoProfile cam rnd time t) as Hstep.
  split; [destruct (processes REAL t time); lia |].
  unfold loop in Hchanged.
  destruct (JS.ltb (time - lastProcessTimeRef t) 32); [contradiction |].
  set (t1 := set_lastProcessTime t time) in *.
  assert (Hedge1 : lastBlinkState t1 = blinkDetected (prevDataRef t1))
    by exact Hedge.
  assert (Hcount1 : blinkCount t1 = blinkCount t) by reflexivity.
  clearbody t1.
  destruct (adapter_cases cam t1)
    as [(results & landmarks & others & Hd & Hf) | (Hblink & Hrefs)].
  - now exists results, landmarks, others.
  - exfalso. apply Hchanged.
    destruct (processFrame cam t1) as [data t2]. simpl in *.
    destruct Hrefs as (Hl & Hc). rewrite Hl, Hc, Hcount1.
    destruct Hblink as [Hb | Hb]; rewrite Hb; [| reflexivity].
    rewrite Hedge1. destruct (blinkDetected (prevDataRef t1)); reflexivity.
Qed.

Lemma blink_counted_only_on_found_face_witness :
  edgeConsistent initialTracker
  /\ edgeConsistent
       (loop REAL HEALTHY
          (readyCamera 0.04 (blinkingFace (meshWithNose (mkPoint 0.75 0.5))))
          evenDraws 1000 initialTracker).
Proof.
  split; [reflexivity |].
  exact (proj1 (blink_counted_only_on_found_face REAL HEALTHY
                  (readyCamera 0.04
                     (blinkingFace (meshWithNose (mkPoint 0.75 0.5))))
                  evenDraws 1000 initialTracker eq_refl)).
Defined.

(** ** The synthetic generator *)

Section Simulation.

Variables (demoProfile : DemoProfile) (rnd : Draws) (time : R).

Lemma headStabilityMult_pos : 0 < headStabilityMult demoProfile.
Proof. destruct demoProfile; simpl; lra. Qed.

Lemma simulateData_pose :
  Rabs (yaw (simulateData demoProfile rnd time))
  <= 9.5 * headStabilityMult demoProfile
  /\ - 3 * headStabilityMult demoProfile
     <= pitch (simulateData demoProfile rnd time)
     <= 7 * headStabilityMult demoProfile.
Proof.
  cbv beta zeta iota delta [simulateData yaw pitch].
  pose proof headStabilityMult_pos as Hm.
  pose proof (SIN_bound (time / 4000)). pose proof (SIN_bound (time / 900)).
  pose proof (COS_bound (time / 5000)). pose proof (SIN_bound (time / 1200)).
  split; [apply Rabs_le |]; split; nra.
Qed.

End Simulation.

(** X8. The head pose of the synthetic generator is bounded by the
    profile's instability multiplier m: yaw within 9.5 m degrees, pitch
    between -3 m and 7 m, roll within 2.5 m, at every time and for every
    random draw. *)
Theorem simulated_pose_bounds :
  forall (demoProfile : DemoProfile) (rnd : Draws) (time : R),
    let f := simulateData demoProfile rnd time in
    let m := headStabilityMult demoProfile in
    Rabs (yaw f) <= 9.5 * m
    /\ - 3 * m <= pitch f <= 7 * m
    /\ Rabs (roll f) <= 2.5 * m.
Proof.
  intros demoProfile rnd time f m.
  destruct (simulateData_pose demoProfile rnd time) as [Hyaw Hpitch].
  split; [exact Hyaw | split; [exact Hpitch |]].
  subst f m. cbv beta zeta iota delta [simulateData roll].
  pose proof (headStabilityMult_pos demoProfile) as Hm.
  pose proof (SIN_bound (time / 6000)). pose proof (COS_bound (time / 1500)).
  apply Rabs_le. split; nra.
Qed.

(** X9. Fed by the synthetic generator in the High profile, the head
    stability exercise never loses points: the deviation |yaw| + |pitch|
    stays at most 3.3 degrees, below the 5 degree tolerance, so a scoring
    tick never lowers a stability score that is at most 100. *)
Theorem high_profile_keeps_stability :
  forall (props : Props) (s : State) (rnd : Draws) (time rx ry : R),
    exerciseType props = HEAD_STABILITY ->
    faceData (tracker s) = simulateData HIGH rnd time ->
    headStabilityScore s <= 100 ->
    Rabs (yaw (faceData (tracker s))) + Rabs (pitch (faceData (tracker s)))
    <= 3.3
    /\ headStabilityScore s <= headStabilityScore (gameLoop props rx ry s).
Proof.
  intros props s rnd time rx ry He Hframe Hh.
  assert (Hdev : Rabs (yaw (faceData (tracker s)))
                 + Rabs (pitch (faceData (tracker s))) <= 3.3).
  { rewrite Hframe.
    destruct (simulateData_pose HIGH rnd time) as [Hyaw Hpitch].
    simpl headStabilityMult in *.
    assert (Rabs (pitch (simulateData HIGH rnd time)) <= 1.4)
      by (apply Rabs_le; lra).
    lra. }
  split; [exact Hdev |].
  unfold gameLoop.
  destruct (negb (isPlaying s) || isFinished s); [lra |].
  rewrite He. simpl. unfold JS.Math_abs.
  rewrite gtb_false by lra.
  unfold JS.Math_min, Rmin.
  destruct (Rle_dec 100 (headStabilityScore s + 0.05)); lra.
Qed.

Lemma high_profile_keeps_stability_witness :
  97 <= headStabilityScore
          (gameLoop (mkProps DEMO HEAD_STABILITY 60 HIGH) 0.3 0.6
             (playingSession 30 0 97
                (deliver initialTracker (simulateData HIGH evenDraws 1000)))).
Proof.
  apply (high_profile_keeps_stability
           (mkProps DEMO HEAD_STABILITY 60 HIGH)
           (playingSession 30 0 97
              (deliver initialTracker (simulateData HIGH evenDraws 1000)))
           evenDraws 1000 0.3 0.6 eq_refl eq_refl).
  simpl. lra.
Defined.

(** X10. In every synthetic frame the eyelids agree with the blink flag:
    a blinking frame has a left openness of exactly 0.02, any other frame
    one between 0.1 and 0.945; the right eye is the left scaled by one
    minus the profile's asymmetry and is never more open than the left. *)
Theorem simulated_eyelids_follow_blink :
  forall (demoProfile : DemoProfile) (rnd : Draws) (time : R),
    let f := simulateData demoProfile rnd time in
    (blinkDetected f = true -> eyeOpennessLeft f = 0.02)
    /\ (blinkDetected f = false -> 0.1 <= eyeOpennessLeft f <= 0.945)
    /\ eyeOpennessRight f = eyeOpennessLeft f * (1 - asymmetry demoProfile)
    /\ eyeOpennessRight f <= eyeOpennessLeft f.
Proof.
  intros demoProfile rnd time f. subst f.
  cbv beta zeta iota delta
    [simulateData blinkDetected eyeOpennessLeft eyeOpennessRight].
  pose proof (SIN_bound (time / 50)) as Htremor.
  match goal with
  | |- context [JS.Math_max 0.1
                  (0.94 - JS.Math_max 0 ?g - JS.Math_max 0 ?p + _)] =>
      generalize g p
  end.
  intros gazeEffect pitchEffect.
  match goal with
  | |- context [if ?b then 0.02 else _] => destruct b
  end;
    (split; [intro; try discriminate; try reflexivity |]);
    (split; [intro; try discriminate |]);
    try (split; [reflexivity |]);
    destruct demoProfile; unfold asymmetry;
    unfold JS.Math_max, Rmax;
    repeat match goal with
           | |- context [Rle_dec ?a ?b] => destruct (Rle_dec a b)
           end;
    lra.
Qed.

(** X11. In demonstration mode no tick is throttled: in every profile,
    at any time and whatever the tracker held, the published frame is the
    generator's frame for that time, it becomes the previous frame, the
    tick's time is recorded and the confidence is 0.98.  Outside the Low
    profile the published gaze is within [-1,1] on both axes at every
    non-negative time and for random draws in the unit interval. *)
Theorem demo_ticks_publish_gaze_in_range :
  forall (demoProfile : DemoProfile) (cam : Camera) (rnd : Draws) (time : R)
         (t : Tracker),
    let t' := loop DEMO demoProfile cam rnd time t in
    processes DEMO t time = true
    /\ faceData t' = simulateData demoProfile rnd time
    /\ prevDataRef t' = faceData t'
    /\ lastProcessTimeRef t' = time
    /\ confidence (faceData t') = 0.98
    /\ (demoProfile <> LOW -> 0 <= time -> drawsInRange rnd ->
        gazeInRange (faceData t')).
Proof.
  intros demoProfile cam rnd time t t'. subst t'.
  unfold loop. cbn [deliver faceData prevDataRef lastProcessTimeRef
                      set_lastProcessTime processes].
  repeat split; try reflexivity;
    now apply steady_profiles_gaze_in_range.
Qed.

(** The High profile, 7 seconds into the session. *)
Lemma demo_ticks_publish_gaze_in_range_witness :
  gazeInRange
    (faceData
       (loop DEMO HIGH (readyCamera 0 noFace) evenDraws 7000 initialTracker)).
Proof.
  apply (demo_ticks_publish_gaze_in_range HIGH (readyCamera 0 noFace)
           evenDraws 7000 initialTracker).
  - discriminate.
  - lra.
  - unfold drawsInRange. simpl. lra.
Defined.

(** ** Geometry on the camera path *)

Section CameraGeometry.

Lemma with_confidence_geometry (f : FaceData) (c : R) :
  gazeInRange f /\ eyesNormalized f ->
  gazeInRange (with_confidence f c) /\ eyesNormalized (with_confidence f c).
Proof. intro H. exact H. Qed.

Lemma processFrame_geometry (cam : Camera) (t : Tracker) :
  landmarksNormalized cam ->
  gazeInRange (prevDataRef t) /\ eyesNormalized (prevDataRef t) ->
  gazeInRange (fst (processFrame cam t))
  /\ eyesNormalized (fst (processFrame cam t)).
Proof.
  intros Hc Hprev. unfold processFrame, landmarksNormalized in *.
  destruct (faceLandmarker cam); [| exact Hprev].
  destruct (videoRef cam) as [video |]; [| exact Hprev].
  destruct (readyState video <? 2)%Z; [exact Hprev |].
  destruct (Req_dec_T (currentTime video) (lastVideoTime t)); [exact Hprev |].
  destruct (detectForVideo cam) as [| results]; [exact Hprev |].
  destruct (faceLandmarks results) as [| landmarks others];
    [exact Hprev |].
  inversion Hc as [| mesh meshes Hmesh _]; subst.
  destruct Hprev as [Hgaze Heyes]. cbn [fst set_lastVideoTime prevDataRef].
  split.
  - apply faceFound_gaze_in_range; [apply Hmesh | exact Hgaze].
  - assert (Hf : 0 <= LANDMARK_SMOOTHING <= 1)
      by (unfold LANDMARK_SMOOTHING; lra).
    destruct Heyes as [Hl Hr].
    split; simpl; apply smoothEye_normalized; try assumption;
      repeat split; apply Hmesh.
Qed.

End CameraGeometry.

(** X12. On the camera path, as long as the detector returns normalised
    landmarks, the gaze of the published frame stays within [-1,1] and
    its eye landmarks stay normalised image points, over any run of ticks
    from a tracker whose frames are in range. *)
Theorem camera_ticks_keep_geometry :
  forall (demoProfile : DemoProfile) (ticks : list Tick) (t : Tracker),
    Forall (fun k => landmarksNormalized (tickCamera k)) ticks ->
    geometryInRange t ->
    geometryInRange (fold_left (loopTick REAL demoProfile) ticks t).
Proof.
  intros demoProfile ticks. induction ticks as [| k ks IH];
    intros t Hall Ht; [exact Ht |].
  inversion Hall as [| k' ks' Hk Hks]; subst.
  cbn [fold_left]. apply IH; [exact Hks |].
  unfold loopTick, loop.
  destruct (JS.ltb (tickTime k - lastProcessTimeRef t) 32); [exact Ht |].
  destruct Ht as (_ & _ & Hgaze & Heyes).
  pose proof (processFrame_geometry (tickCamera k)
                (set_lastProcessTime t (tickTime k)) Hk (conj Hgaze Heyes))
    as [Hg He].
  destruct (processFrame (tickCamera k) (set_lastProcessTime t (tickTime k)))
    as [data t2].
  exact (conj Hg (conj He (conj Hg He))).
Qed.

Lemma camera_ticks_keep_geometry_witness :
  geometryInRange
    (fold_left (loopTick REAL HEALTHY)
       [mkTick
          (readyCamera 0.04 (blinkingFace (meshWithNose (mkPoint 0.75 0.5))))
          evenDraws 1000]
       initialTracker).
Proof.
  apply (camera_ticks_keep_geometry HEALTHY
           [mkTick
              (readyCamera 0.04
                 (blinkingFace (meshWithNose (mkPoint 0.75 0.5))))
              evenDraws 1000]
           initialTracker).
  - constructor; [| constructor].
    unfold landmarksNormalized. simpl.
    constructor; [| constructor].
    intro i. unfold meshWithNose, normalized, unit_interval.
    destruct (Nat.eqb i 1); simpl; lra.
  - unfold geometryInRange, gazeInRange, eyesNormalized. simpl.
    repeat split; lra.
Defined.

(** ** The session over time *)

Section Countdown.

Variable props : Props.

(** Timer ticks on a playing session whose countdown is above one only
    lower the countdown. *)
Lemma timerTick_counts_down (s : State) :
  isPlaying s = true -> isFinished s = false -> (1 < timeLeft s)%Z ->
  timerTick s
  = {| isPlaying := true; isFinished := false;
       timeLeft := timeLeft s - 1; score := score s;
       sessionBlinks := sessionBlinks s;
       headStabilityScore := headStabilityScore s;
       demoState := demoState s; target := target s;
       targetMoveTimer := targetMoveTimer s; tracker := tracker s |}.
Proof.
  intros Hp Hf Ht. unfold timerTick. rewrite Hp, Hf. simpl.
  destruct (Z.leb_spec (timeLeft s) 1); [lia | reflexivity].
Qed.

Lemma countdown_running (k : nat) :
  forall s : State,
    isPlaying s = true -> isFinished s = false ->
    (Z.of_nat k < timeLeft s)%Z ->
    let s' := fold_left (step props) (repeat TimerTick k) s in
    isPlaying s' = true /\ isFinished s' = false
    /\ timeLeft s' = (timeLeft s - Z.of_nat k)%Z
    /\ score s' = score s /\ sessionBlinks s' = sessionBlinks s
    /\ headStabilityScore s' = headStabilityScore s
    /\ tracker s' = tracker s.
Proof.
  induction k as [| k IH]; intros s Hp Hf Ht.
  - simpl. repeat split; try assumption. lia.
  - cbn [repeat fold_left step].
    rewrite timerTick_counts_down by (try assumption; lia).
    match goal with
    | |- context [fold_left _ _ ?s1] =>
        specialize (IH s1 eq_refl eq_refl)
    end.
    cbn [timeLeft] in IH. specialize (IH ltac:(lia)).
    cbn zeta in *. cbn [timeLeft score sessionBlinks headStabilityScore
                          tracker] in IH.
    destruct IH as (H1 & H2 & H3 & H4 & H5 & H6 & H7).
    repeat split; try assumption. lia.
Qed.

End Countdown.

(** X13. The countdown of a playing session: with n seconds left (n at
    least 1), every timer tick before the n-th leaves the session playing
    with one second less, and the n-th finishes it with 0 seconds left;
    score, blink count, stability score and tracker are untouched by the
    timer. *)
Theorem countdown_finishes_after_time_left :
  forall (props : Props) (s : State) (n : nat),
    isPlaying s = true ->
    isFinished s = false ->
    timeLeft s = Z.of_nat n ->
    (1 <= n)%nat ->
    (forall k : nat,
        (k < n)%nat ->
        phase (fold_left (step props) (repeat TimerTick k) s) = Playing
        /\ timeLeft (fold_left (step props) (repeat TimerTick k) s)
           = Z.of_nat (n - k))
    /\ (let s' := fold_left (step props) (repeat TimerTick n) s in
        phase s' = Finished /\ timeLeft s' = 0%Z
        /\ score s' = score s /\ sessionBlinks s' = sessionBlinks s
        /\ headStabilityScore s' = headStabilityScore s
        /\ tracker s' = tracker s).
Proof.
  intros props s n Hp Hf Ht Hn. split.
  - intros k Hk.
    destruct (countdown_running props k s Hp Hf ltac:(lia))
      as (H1 & H2 & H3 & _).
    unfold phase. rewrite H1, H2, H3. split; [reflexivity | lia].
  - destruct n as [| m]; [lia |].
    replace (S m) with (m + 1)%nat by lia.
    rewrite repeat_app, fold_left_app.
    destruct (countdown_running props m s Hp Hf ltac:(lia))
      as (H1 & H2 & H3 & H4 & H5 & H6 & H7).
    set (s1 := fold_left (step props) (repeat TimerTick m) s) in *.
    cbn [repeat fold_left step]. unfold timerTick. rewrite H1, H2. simpl.
    destruct (Z.leb_spec (timeLeft s1) 1); [| lia].
    unfold phase. simpl. repeat split; assumption.
Qed.

Lemma countdown_finishes_after_time_left_witness :
  phase (fold_left (step (mkProps REAL BLINK_TRAINING 3 HEALTHY))
           (repeat TimerTick 3)
           (playingSession 3 0 100 initialTracker)) = Finished.
Proof.
  apply (countdown_finishes_after_time_left
           (mkProps REAL BLINK_TRAINING 3 HEALTHY)
           (playingSession 3 0 100 initialTracker) 3);
    try reflexivity. lia.
Defined.

Section SessionInvariants.

Variable props : Props.

Lemma step_phaseInvariant (s : State) (e : Event) :
  (0 <= durationSeconds props)%Z ->
  phaseInvariant props s -> phaseInvariant props (step props s e).
Proof.
  intros Hd Hinv. pose proof Hinv as [Hfin Htime].
  destruct e as [cam rnd time | | rx ry | | | p]; simpl.
  - unfold animationFrame. destruct (isPlaying s) eqn:Hp; [| exact Hinv].
    unfold syncBlinks. simpl. split; simpl; [| exact Htime].
    intro Hf. destruct (Hfin Hf). congruence.
  - unfold timerTick.
    destruct (isPlaying s) eqn:Hp; destruct (isFinished s) eqn:Hf; simpl;
      try exact Hinv.
    destruct (Z.leb_spec (timeLeft s) 1); split; simpl; try lia;
      try discriminate; intros _; split; reflexivity.
  - unfold gameLoop.
    destruct (negb (isPlaying s) || isFinished s); [exact Hinv |].
    destruct (exerciseType props); exact Hinv.
  - unfold togglePlay. destruct (isFinished s) eqn:Hf.
    + split; simpl; [discriminate | lia].
    + unfold syncBlinks. simpl.
      destruct (negb (isPlaying s)); split; simpl; try exact Htime;
        discriminate.
  - destruct (isFinished s); [| exact Hinv].
    split; simpl; [discriminate | lia].
  - exact Hinv.
Qed.

Lemma step_counterInvariant (s : State) (e : Event) :
  counterInvariant props s -> counterInvariant props (step props s e).
Proof.
  intros Hinv.
  pose proof Hinv as (Hsync & Hblinks & Hscore & Hblink & Hhead).
  destruct e as [cam rnd time | | rx ry | | | p]; simpl.
  - unfold animationFrame. destruct (isPlaying s) eqn:Hp; [| exact Hinv].
    unfold syncBlinks. simpl.
    pose proof (loop_count_step (mode props) (demoState s) cam rnd time
                  (tracker s)) as Hmono.
    split; [| split; [| split; [| split]]]; simpl;
      try assumption; try lia.
    intro He. specialize (Hblink He). lia.
  - unfold timerTick.
    destruct (negb (isPlaying s) || isFinished s); [exact Hinv |].
    destruct (timeLeft s <=? 1)%Z; exact Hinv.
  - unfold gameLoop.
    destruct (negb (isPlaying s) || isFinished s); [exact Hinv |].
    destruct (exerciseType props) eqn:He;
      (split; [| split; [| split; [| split]]]); simpl;
      try assumption; try discriminate; try lia;
      try (destruct (JS.gtb _ 0.5); lia);
      try (intro H; rewrite He in H; discriminate);
      try (intros _; exact (Hhead eq_refl)).
  - unfold togglePlay. destruct (isFinished s).
    + split; [| split; [| split; [| split]]]; simpl; lia.
    + unfold syncBlinks. simpl.
      destruct (negb (isPlaying s));
        (split; [| split; [| split; [| split]]]); simpl;
        try assumption; try lia.
      intro He. specialize (Hblink He). lia.
  - destruct (isFinished s); [| exact Hinv].
    split; [| split; [| split; [| split]]]; simpl; lia.
  - exact Hinv.
Qed.

Lemma run_invariant (P : State -> Prop) (events : list Event) :
  (forall s e, P s -> P (step props s e)) ->
  forall s, P s -> P (fold_left (step props) events s).
Proof.
  intro Hstep. induction events as [| e es IH]; intros s Hs; [exact Hs |].
  simpl. apply IH. now apply Hstep.
Qed.

(** The score of a session never exceeds the scoring ticks it saw. *)
Lemma score_bounded_by_ticks (events : list Event) :
  forall s : State,
    (0 <= score s)%Z ->
    exerciseType props = FOLLOW_DOT ->
    (score (fold_left (step props) events s)
     <= score s + Z.of_nat (List.length (filter isGameTick events)))%Z.
Proof.
  induction events as [| e es IH]; intros s Hs He; [simpl; lia |].
  cbn [fold_left filter].
  assert (Hstep : (0 <= score (step props s e)
                   <= score s + (if isGameTick e then 1 else 0))%Z).
  { destruct e as [cam rnd time | | rx ry | | | p]; simpl.
    - unfold animationFrame. destruct (isPlaying s); [| lia].
      unfold syncBlinks. simpl. lia.
    - unfold timerTick.
      destruct (negb (isPlaying s) || isFinished s); [lia |].
      destruct (timeLeft s <=? 1)%Z; simpl; lia.
    - unfold gameLoop.
      destruct (negb (isPlaying s) || isFinished s); [lia |].
      rewrite He. simpl. destruct (JS.gtb _ 0.5); lia.
    - unfold togglePlay. destruct (isFinished s); simpl; [lia |].
      unfold syncBlinks. simpl. destruct (negb (isPlaying s)); simpl; lia.
    - destruct (isFinished s); simpl; lia.
    - lia. }
  specialize (IH (step props s e) ltac:(lia) He).
  destruct (isGameTick e); simpl List.length; lia.
Qed.

End SessionInvariants.

(** X14. Whatever happens to a mounted exercise with a non-negative
    duration, a finished session is never playing and always shows 0
    seconds left (it can only have been finished by the countdown, so its
    elapsed time is the whole duration), and the time left stays between
    0 and the configured duration. *)
Theorem finished_session_has_run_out :
  forall (props : Props) (events : list Event),
    (0 <= durationSeconds props)%Z ->
    let s := run props events in
    (isFinished s = true -> isPlaying s = false /\ timeLeft s = 0%Z)
    /\ (0 <= timeLeft s <= durationSeconds props)%Z.
Proof.
  intros props events Hd s. subst s. unfold run.
  apply (run_invariant props (phaseInvariant props)).
  - intros s e. now apply step_phaseInvariant.
  - split; simpl; [discriminate | lia].
Qed.

Lemma finished_session_has_run_out_witness :
  (0 <= timeLeft (run (mkProps REAL BLINK_TRAINING 1 HEALTHY)
                    [TogglePlay; TimerTick]) <= 1)%Z.
Proof.
  apply (finished_session_has_run_out (mkProps REAL BLINK_TRAINING 1 HEALTHY)
           [TogglePlay; TimerTick]).
  simpl. lia.
Defined.

(** X15. Whatever happens to a mounted exercise, the session's blink
    count is the tracker's, no counter is negative, the score of a blink
    session never exceeds the blinks counted, the score of a dot-following
    session never exceeds the number of scoring ticks, and a head
    stability session keeps a score of 0. *)
Theorem session_counters_consistent :
  forall (props : Props) (events : list Event),
    let s := run props events in
    sessionBlinks s = blinkCount (tracker s)
    /\ (0 <= sessionBlinks s)%Z
    /\ (0 <= score s)%Z
    /\ (exerciseType props = BLINK_TRAINING -> score s <= sessionBlinks s)%Z
    /\ (exerciseType props = HEAD_STABILITY -> score s = 0%Z)
    /\ (exerciseType props = FOLLOW_DOT ->
        score s <= Z.of_nat (List.length (filter isGameTick events)))%Z.
Proof.
  intros props events s.
  assert (Hinv : counterInvariant props s).
  { subst s. unfold run.
    apply (run_invariant props (counterInvariant props)).
    - intros s e. now apply step_counterInvariant.
    - split; [| split; [| split; [| split]]]; simpl; try lia;
        reflexivity. }
  destruct Hinv as (H1 & H2 & H3 & H4 & H5).
  split; [| split; [| split; [| split; [| split]]]]; try assumption.
  intro He. subst s. unfold run.
  pose proof (score_bounded_by_ticks props events (initialState props)
                ltac:(simpl; lia) He) as Hb.
  simpl score in Hb at 2. lia.
Qed.

Section ScoringTicks.

Variable props : Props.


(** A scoring tick of the head stability exercise on a playing session. *)
Lemma gameLoop_stability (s : State) (rx ry : R) :
  exerciseType props = HEAD_STABILITY ->
  isPlaying s = true -> isFinished s = false ->
  let s' := gameLoop props rx ry s in
  isPlaying s' = true /\ isFinished s' = false
  /\ faceData (tracker s') = faceData (tracker s)
  /\ headStabilityScore s'
     = if JS.gtb (Rabs (yaw (faceData (tracker s)))
                  + Rabs (pitch (faceData (tracker s)))) 5
       then Rmax 0 (headStabilityScore s - 0.2)
       else Rmin 100 (headStabilityScore s + 0.05).
Proof.
  intros He Hp Hf. unfold gameLoop. rewrite Hp, Hf, He. simpl.
  repeat split; reflexivity.
Qed.

End ScoringTicks.



(** X17. Over any number of scoring ticks of the head stability exercise
    on an unchanged frame, the stability score moves one way only: while
    the head deviates by more than 5 degrees it never rises, stays at or
    above 0 and, from the first tick on, lies strictly below a positive
    starting score; while the head does not deviate it never falls,
    stays at or below 100 and lies strictly above a starting score under
    100. *)
Theorem stability_follows_deviation :
  forall (props : Props) (ticks : list Event) (s : State),
    exerciseType props = HEAD_STABILITY ->
    isPlaying s = true ->
    isFinished s = false ->
    Forall (fun e => isGameTick e = true) ticks ->
    0 <= headStabilityScore s <= 100 ->
    let deviation :=
      Rabs (yaw (faceData (tracker s))) + Rabs (pitch (faceData (tracker s)))
    in
    let s' := fold_left (step props) ticks s in
    (5 < deviation ->
     0 <= headStabilityScore s' <= headStabilityScore s
     /\ (ticks <> [] -> 0 < headStabilityScore s ->
         headStabilityScore s' < headStabilityScore s))
    /\ (deviation <= 5 ->
        headStabilityScore s <= headStabilityScore s' <= 100
        /\ (ticks <> [] -> headStabilityScore s < 100 ->
            headStabilityScore s < headStabilityScore s')).
Proof.
  intros props ticks. induction ticks as [| e es IH];
    intros s He Hp Hf Hall Hrange deviation s'.
  - subst s'. simpl. split; intros _; (split; [lra | intro H; now destruct H]).
  - inversion Hall as [| e' es' Hgame Hes]; subst e' es'.
    destruct e as [cam rnd time | | rx ry | | | p]; try discriminate.
    destruct (gameLoop_stability props s rx ry He Hp Hf)
      as (Hp1 & Hf1 & Hface & Hscore).
    fold deviation in Hscore.
    subst s'. cbn [fold_left step].
    set (s1 := gameLoop props rx ry s) in *.
    split; intro Hdev.
    + rewrite gtb_true in Hscore by exact Hdev.
      assert (H1 : 0 <= headStabilityScore s1 <= headStabilityScore s
                   /\ (0 < headStabilityScore s ->
                       headStabilityScore s1 < headStabilityScore s)).
      { rewrite Hscore. unfold Rmax.
        destruct (Rle_dec 0 (headStabilityScore s - 0.2)); split; lra. }
      destruct H1 as [Hr1 Hstrict].
      destruct (IH s1 He Hp1 Hf1 Hes ltac:(lra)) as [IHdown _].
      rewrite Hface in IHdown. destruct (IHdown Hdev) as [Hr2 _].
      split; [lra |]. intros _ Hpos. specialize (Hstrict Hpos). lra.
    + rewrite gtb_false in Hscore by exact Hdev.
      assert (H1 : headStabilityScore s <= headStabilityScore s1 <= 100
                   /\ (headStabilityScore s < 100 ->
                       headStabilityScore s < headStabilityScore s1)).
      { rewrite Hscore. unfold Rmin.
        destruct (Rle_dec 100 (headStabilityScore s + 0.05)); split; lra. }
      destruct H1 as [Hr1 Hstrict].
      destruct (IH s1 He Hp1 Hf1 Hes ltac:(lra)) as [_ IHup].
      rewrite Hface in IHup. destruct (IHup Hdev) as [Hr2 _].
      split; [lra |]. intros _ Hlow. specialize (Hstrict Hlow). lra.
Qed.

(** Two scoring ticks with the head at rest raise a score of 99.5. *)
Lemma stability_follows_deviation_witness :
  99.5
  < headStabilityScore
      (fold_left (step (mkProps REAL HEAD_STABILITY 60 HEALTHY))
         [GameTick 0.3 0.6; GameTick 0.1 0.2]
         (playingSession 30 0 99.5 initialTracker)).
Proof.
  apply (stability_follows_deviation
           (mkProps REAL HEAD_STABILITY 60 HEALTHY)
           [GameTick 0.3 0.6; GameTick 0.1 0.2]
           (playingSession 30 0 99.5 initialTracker)
           eq_refl eq_refl eq_refl).
  - repeat constructor.
  - simpl. lra.
  - simpl. rewrite Rabs_R0. lra.
  - discriminate.
  - simpl. lra.
Defined.

(** ** The analysis of reachable sessions *)

(** X18. In both modes and for every exercise the status of the analysis
    is the one the thresholds give to its clinical value: blink rates
    below 10 or above 30 are warnings; stability below 60 is critical and
    below 80 a warning; accuracy below 50 is critical; everything else is
    good.  The literal table of the demonstration mode agrees with the
    thresholds of the measured path. *)
Theorem status_follows_thresholds :
  forall (props : Props) (s : State),
    status (getDetailedAnalysis props s)
    = thresholdStatus (exerciseType props)
        (clinicalValue (getDetailedAnalysis props s)).
Proof.
  intros props s. unfold getDetailedAnalysis, demoReport, thresholdStatus.
  destruct (mode props).
  - destruct (exerciseType props), (demoState s); simpl;
      unfold JS.gtb, JS.ltb;
      repeat match goal with
             | |- context [Rlt_dec ?a ?b] => destruct (Rlt_dec a b)
             end;
      simpl; try reflexivity; exfalso; lra.
  - destruct (exerciseType props); simpl; try reflexivity.
    destruct (JS.lt_const _ 10), (JS.gt_const _ 30); reflexivity.
Qed.

Section ReachableAnalysis.

Variable props : Props.

Lemma step_stability_range (s : State) (e : Event) :
  0 <= headStabilityScore s <= 100 ->
  0 <= headStabilityScore (step props s e) <= 100.
Proof.
  intro Hh. destruct e as [cam rnd time | | rx ry | | | p]; simpl.
  - unfold animationFrame. destruct (isPlaying s); [| exact Hh].
    unfold syncBlinks. simpl. exact Hh.
  - unfold timerTick.
    destruct (negb (isPlaying s) || isFinished s); [exact Hh |].
    destruct (timeLeft s <=? 1)%Z; exact Hh.
  - unfold gameLoop.
    destruct (negb (isPlaying s) || isFinished s); [exact Hh |].
    destruct (stability_step_in_range _ Hh) as [Hdec Hinc].
    destruct (exerciseType props); simpl; try exact Hh.
    destruct (JS.gtb _ 5); assumption.
  - unfold togglePlay. destruct (isFinished s); simpl; [lra |].
    unfold syncBlinks. simpl. destruct (negb (isPlaying s)); exact Hh.
  - destruct (isFinished s); [simpl; lra | exact Hh].
  - exact Hh.
Qed.

Lemma Math_round_nonneg (v : R) :
  0 <= v -> exists z : Z, JS.Math_round v = IZR z /\ (0 <= z)%Z.
Proof.
  intro Hv. exists (Zfloor (v + / 2)). split; [reflexivity |].
  apply Zfloor_lub. lra.
Qed.

Lemma Math_round_percent (v : R) :
  0 <= v <= 100 ->
  exists z : Z, JS.Math_round v = IZR z /\ (0 <= z <= 100)%Z.
Proof.
  intro Hv. exists (Zfloor (v + / 2)). split; [reflexivity |].
  split; [apply Zfloor_lub; lra |].
  destruct (Zfloor_bound (v + / 2)) as [Hl _].
  assert (IZR (Zfloor (v + / 2)) < 101) by lra.
  apply lt_IZR in H. lia.
Qed.

End ReachableAnalysis.

(** X19. On the measured path a finished blink session of a positive
    duration d always reports blinkCount * 60 / d rounded to an integer
    (an integer at most one half away from that quotient; exactly halfway
    between two integers the floating-point quotient decides between the
    neighbours): a session can only be finished by its countdown, so the
    elapsed time is the whole duration; with the 60 seconds the
    application configures, the reported rate is the blink count itself. *)
Theorem finished_blink_rate :
  forall (props : Props) (events : list Event),
    mode props = REAL ->
    exerciseType props = BLINK_TRAINING ->
    (0 < durationSeconds props)%Z ->
    let s := run props events in
    isFinished s = true ->
    exists bpm : Z,
      clinicalValue (getDetailedAnalysis props s) = JS.Fin (IZR bpm)
      /\ Rabs (IZR bpm
               - IZR (sessionBlinks s) * 60 / IZR (durationSeconds props))
         <= / 2
      /\ (durationSeconds props = 60%Z -> bpm = sessionBlinks s).
Proof.
  intros props events Hm He Hd s Hfin.
  assert (Hinv : phaseInvariant props s).
  { subst s. unfold run.
    apply (run_invariant props (phaseInvariant props)).
    - intros s e. apply step_phaseInvariant. lia.
    - split; simpl; [discriminate | lia]. }
  destruct Hinv as [Hzero _]. destruct (Hzero Hfin) as [_ Hleft].
  rewrite (measured_bpm props s Hm He).
  rewrite durationMins_nonzero by (rewrite Hleft; lia).
  rewrite Hleft, Z.sub_0_r.
  assert (Hpos : 0 < IZR (durationSeconds props)) by now apply IZR_lt.
  assert (E : IZR (sessionBlinks s) / (IZR (durationSeconds props) / 60)
              = IZR (sessionBlinks s) * 60 / IZR (durationSeconds props))
    by (field; lra).
  rewrite E.
  destruct (Math_round_nearest
              (IZR (sessionBlinks s) * 60 / IZR (durationSeconds props)))
    as (Hround & Hnear).
  eexists. split; [rewrite Hround; reflexivity |].
  split; [exact Hnear |].
  intro H60. apply (nearest_unique _ _ _ Hnear).
  rewrite H60. lra.
Qed.

(** A one-second session played to its end without a blink reports 0. *)
Lemma finished_blink_rate_witness :
  clinicalValue
    (getDetailedAnalysis (mkProps REAL BLINK_TRAINING 1 HEALTHY)
       (run (mkProps REAL BLINK_TRAINING 1 HEALTHY) [TogglePlay; TimerTick]))
  = JS.Fin 0.
Proof.
  destruct (finished_blink_rate (mkProps REAL BLINK_TRAINING 1 HEALTHY)
              [TogglePlay; TimerTick] eq_refl eq_refl eq_refl eq_refl)
    as (bpm & Hval & Hnear & _).
  rewrite Hval. do 2 f_equal.
  apply (nearest_unique _ _ _ Hnear). simpl. lra.
Defined.

(** X20. For a mounted exercise with a non-negative duration, whatever
    happened to it and in either mode, the clinical value of the analysis
    is a non-negative integer, and for the two percentage metrics
    (accuracy and stability) it is at most 100; this includes a session
    with no elapsed time, where the accuracy falls back to 0 or 100. *)
Theorem clinical_value_is_bounded_integer :
  forall (props : Props) (events : list Event),
    (0 <= durationSeconds props)%Z ->
    let s := run props events in
    exists z : Z,
      clinicalValue (getDetailedAnalysis props s) = JS.Fin (IZR z)
      /\ (0 <= z)%Z
      /\ (exerciseType props <> BLINK_TRAINING -> z <= 100)%Z.
Proof.
  intros props events Hd s.
  assert (Hphase : phaseInvariant props s).
  { subst s. unfold run.
    apply (run_invariant props (phaseInvariant props)).
    - intros s e. now apply step_phaseInvariant.
    - split; simpl; [discriminate | lia]. }
  assert (Hcount : counterInvariant props s).
  { subst s. unfold run.
    apply (run_invariant props (counterInvariant props)).
    - intros s e. now apply step_counterInvariant.
    - split; [| split; [| split; [| split]]]; simpl; try lia; reflexivity. }
  assert (Hstab : 0 <= headStabilityScore s <= 100).
  { subst s. unfold run.
    apply (run_invariant props (fun s => 0 <= headStabilityScore s <= 100)).
    - intros s e. apply step_stability_range.
    - simpl. lra. }
  clearbody s.
  destruct Hphase as [_ Htime].
  destruct Hcount as (_ & Hblinks & Hscore & _).
  destruct (mode props) eqn:Hm.
  - unfold getDetailedAnalysis, demoReport. rewrite Hm.
    destruct (exerciseType props), (demoState s); simpl;
      [exists 88%Z | exists 45%Z | exists 98%Z
      | exists 16%Z | exists 6%Z | exists 42%Z
      | exists 82%Z | exists 35%Z | exists 96%Z];
      (split; [reflexivity | split; [lia | intros _; lia]]).
  - destruct (exerciseType props) eqn:He.
    + destruct (Z.eq_dec (durationSeconds props - timeLeft s) 0) as [E | E].
      * rewrite (measured_accuracy_no_time props s Hm He E).
        destruct (Z.ltb_spec 0 (score s)).
        -- exists 100%Z. split; [reflexivity | lia].
        -- destruct (Z.ltb_spec (score s) 0); [lia |].
           exists 0%Z. split; [reflexivity | lia].
      * rewrite (measured_accuracy props s Hm He E).
        unfold gazeAccuracy.
        assert (Hq : 0 <= IZR (score s)
                          / (IZR (durationSeconds props - timeLeft s) * 10)
                          * 100).
        { apply IZR_le in Hscore.
          assert (0 < IZR (durationSeconds props - timeLeft s))
            by (apply IZR_lt; lia).
          apply Rmult_le_pos; [| lra].
          apply Rmult_le_pos; [exact Hscore |].
          left. apply Rinv_0_lt_compat. lra. }
        destruct (Math_round_nonneg _ Hq) as (z & Hz & Hz0).
        rewrite Hz. exists (Z.min 100 z). split; [| lia].
        f_equal. unfold Rmin.
        destruct (Rle_dec 100 (IZR z)) as [Hle | Hgt].
        -- apply le_IZR in Hle. now rewrite Z.min_l.
        -- rewrite Z.min_r; [reflexivity |].
           apply Z.lt_le_incl, lt_IZR. lra.
    + rewrite (measured_bpm props s Hm He).
      assert (Hmins : 0 < durationMins props s).
      { destruct (Z.eq_dec (durationSeconds props - timeLeft s) 0) as [E | E].
        - rewrite durationMins_zero by exact E. lra.
        - rewrite durationMins_nonzero by exact E.
          assert (0 < IZR (durationSeconds props - timeLeft s))
            by (apply IZR_lt; lia).
          lra. }
      assert (Hq : 0 <= IZR (sessionBlinks s) / durationMins props s).
      { apply IZR_le in Hblinks. apply Rmult_le_pos; [exact Hblinks |].
        left. now apply Rinv_0_lt_compat. }
      destruct (Math_round_nonneg _ Hq) as (z & Hz & Hz0).
      exists z. rewrite Hz. split; [reflexivity | split; [exact Hz0 |]].
      intro Hne. contradiction.
    + unfold getDetailedAnalysis. rewrite Hm, He. simpl.
      destruct (Math_round_percent _ Hstab) as (z & Hz & Hz0).
      exists z. rewrite Hz. split; [reflexivity | split; lia].
Qed.

Lemma clinical_value_is_bounded_integer_witness :
  exists z : Z,
    clinicalValue
      (getDetailedAnalysis (mkProps REAL HEAD_STABILITY 1 HEALTHY)
         (run (mkProps REAL HEAD_STABILITY 1 HEALTHY)
            [TogglePlay; TimerTick]))
    = JS.Fin (IZR z)
    /\ (0 <= z)%Z.
Proof.
  destruct (clinical_value_is_bounded_integer
              (mkProps REAL HEAD_STABILITY 1 HEALTHY)
              [TogglePlay; TimerTick])
    as (z & Hz & Hz0 & _).
  - simpl. lia.
  - exists z. split; assumption.
Defined.

(** ** Countdown display and gauge *)

Section Display.

Lemma display_round_trips_below_6000 :
  displayRoundTrips 0 (Z.to_nat 6000) = true.
Proof. vm_compute. reflexivity. Qed.

Lemma displayRoundTrips_each (count : nat) :
  forall start : Z,
    displayRoundTrips start count = true ->
    forall seconds : Z,
      (start <= seconds < start + Z.of_nat count)%Z ->
      displayRoundTrip seconds = true.
Proof.
  induction count as [| k IH]; intros start Hall seconds Hrange; [lia |].
  cbn [displayRoundTrips] in Hall. apply andb_prop in Hall.
  destruct Hall as [Hhere Hrest].
  destruct (Z.eq_dec seconds start) as [-> | Hne]; [exact Hhere |].
  apply (IH (start + 1)%Z Hrest). lia.
Qed.

End Display.

(** X21. For every time left from 0 up to 99 minutes 59 seconds the
    countdown display has exactly five characters, and reading the
    minutes before the colon and the seconds after it gives the time
    back: distinct times are never shown alike. *)
Theorem countdown_display_round_trip :
  forall seconds : Z,
    (0 <= seconds < 6000)%Z ->
    String.length (formatTime seconds) = 5%nat
    /\ decodeTime (formatTime seconds) = Some seconds.
Proof.
  intros seconds Hrange.
  assert (Hcheck : displayRoundTrip seconds = true).
  { apply (displayRoundTrips_each (Z.to_nat 6000) 0
             display_round_trips_below_6000).
    rewrite Z2Nat.id; [exact Hrange | discriminate]. }
  unfold displayRoundTrip in Hcheck. apply andb_prop in Hcheck.
  destruct Hcheck as [Hlen Hdec].
  split; [now apply Nat.eqb_eq |].
  destruct (decodeTime (formatTime seconds)) as [v |]; [| discriminate].
  apply Z.eqb_eq in Hdec. now subst v.
Qed.

Lemma countdown_display_round_trip_witness :
  formatTime 59 = "00:59"%string
  /\ decodeTime (formatTime 59) = Some 59%Z.
Proof.
  split; [reflexivity |].
  apply (countdown_display_round_trip 59). lia.
Defined.

(** X22. The marker of the report gauge is always placed between 0 and
    100 percent of the bar, never moves left when the value grows, sits
    at 0 for values that are not positive and at 100 for values at or
    above the scale (50 for blink rates, 100 for percentages). *)
Theorem gauge_marker_stays_on_bar :
  forall (type : GaugeType) (value : R),
    0 <= gaugePercentage value type <= 100
    /\ (forall larger : R,
          value <= larger ->
          gaugePercentage value type <= gaugePercentage larger type)
    /\ (value <= 0 -> gaugePercentage value type = 0)
    /\ (maxScale type <= value -> gaugePercentage value type = 100).
Proof.
  intros type value.
  assert (Hscale : 0 < maxScale type) by (destruct type; simpl; lra).
  unfold gaugePercentage, JS.Math_min, JS.Math_max.
  assert (Hmono : forall a b : R,
             a <= b -> a / maxScale type * 100 <= b / maxScale type * 100).
  { intros a b Hab. apply Rmult_le_compat_r; [lra |].
    apply Rmult_le_compat_r; [| exact Hab].
    left. now apply Rinv_0_lt_compat. }
  split; [| split; [| split]].
  - unfold Rmin, Rmax.
    destruct (Rle_dec 0 (value / maxScale type * 100));
      destruct (Rle_dec 100 (value / maxScale type * 100));
      try destruct (Rle_dec 100 0); lra.
  - intros larger Hle. specialize (Hmono value larger Hle).
    apply Rle_min_compat_l. now apply Rle_max_compat_l.
  - intro Hneg. specialize (Hmono value 0 Hneg).
    replace (0 / maxScale type * 100) with 0 in Hmono by (field; lra).
    rewrite Rmax_left by exact Hmono. apply Rmin_right. lra.
  - intro Hfull. specialize (Hmono (maxScale type) value Hfull).
    replace (maxScale type / maxScale type * 100) with 100 in Hmono
      by (field; lra).
    rewrite Rmax_right by lra. now apply Rmin_left.
Qed.

(** ** The guided assessment *)

Section AssessmentRun.

Lemma assessment_tick_invariant (faceData : FaceData)
    (s : Assessment.State) :
  (Assessment.stepIndex s < List.length Assessment.STEPS)%nat
  /\ (1 <= Assessment.timeLeft s <= 10)%Z
  /\ 0 <= Assessment.score s <= 100 ->
  (Assessment.stepIndex (Assessment.tick faceData s)
   < List.length Assessment.STEPS)%nat
  /\ (1 <= Assessment.timeLeft (Assessment.tick faceData s) <= 10)%Z
  /\ 0 <= Assessment.score (Assessment.tick faceData s) <= 100.
Proof.
  intros (Hstep & Htime & Hscore). unfold Assessment.tick.
  change (List.length Assessment.STEPS) with 6%nat in *.
  destruct (Nat.leb_spec (6 - 1) (Assessment.stepIndex s)) as [Hlast | Hrun];
    [repeat split; try lia; lra |].
  cbn [Assessment.stepIndex Assessment.timeLeft Assessment.score].
  split; [| split].
  - destruct (Assessment.timeLeft s <=? 1)%Z; lia.
  - destruct (Z.leb_spec (Assessment.timeLeft s) 1); [| lia].
    remember (Assessment.stepIndex s) as i eqn:Ei.
    destruct i as [| [| [| [| [| n]]]]];
      unfold Assessment.durationAt, Assessment.STEPS; simpl; lia.
  - destruct (JS.gtb (confidence faceData) 0.8);
      unfold JS.Math_min, JS.Math_max, Rmin, Rmax;
      match goal with
      | |- context [Rle_dec ?a ?b] => destruct (Rle_dec a b)
      end; lra.
Qed.

End AssessmentRun.

(** X23. Over any sequence of frames seen by the one-second interval of
    the guided assessment, the step index stays inside the table of steps
    (the current step is always defined), the time shown stays between 1
    and 10 seconds, and the running score stays between 0 and 100. *)
Theorem assessment_stays_within_steps :
  forall frames : list FaceData,
    let s := fold_left (fun s f => Assessment.tick f s) frames
               Assessment.initialState in
    (exists step : Assessment.Step,
        nth_error Assessment.STEPS (Assessment.stepIndex s) = Some step)
    /\ (1 <= Assessment.timeLeft s <= 10)%Z
    /\ 0 <= Assessment.score s <= 100.
Proof.
  intros frames s.
  assert (Hinv : (Assessment.stepIndex s
                  < List.length Assessment.STEPS)%nat
                 /\ (1 <= Assessment.timeLeft s <= 10)%Z
                 /\ 0 <= Assessment.score s <= 100).
  { subst s.
    assert (Hinit : (Assessment.stepIndex Assessment.initialState
                     < List.length Assessment.STEPS)%nat
                    /\ (1 <= Assessment.timeLeft Assessment.initialState
                        <= 10)%Z
                    /\ 0 <= Assessment.score Assessment.initialState <= 100)
      by (simpl; repeat split; try lia; lra).
    revert Hinit. generalize Assessment.initialState.
    induction frames as [| f fs IH]; intros s0 Hs0; [exact Hs0 |].
    simpl. apply IH. now apply assessment_tick_invariant. }
  destruct Hinv as (Hstep & Htime & Hscore).
  split; [| split; assumption].
  destruct (nth_error Assessment.STEPS (Assessment.stepIndex s)) as [step |]
    eqn:E; [now exists step |].
  apply nth_error_None in E. lia.
Qed.

(** X24. The score the guided assessment hands over on completion is an
    integer between 75 and 94 for every random draw in the unit
    interval. *)
Theorem assessment_completion_score_range :
  forall random : R,
    0 <= random < 1 ->
    exists z : Z,
      Assessment.completionScore random = IZR z /\ (75 <= z <= 94)%Z.
Proof.
  intros random [Hlo Hhi].
  exists (Zfloor (random * 20) + 75)%Z.
  unfold Assessment.completionScore, JS.Math_floor.
  split; [now rewrite plus_IZR |].
  destruct (Zfloor_bound (random * 20)) as [Hl Hu].
  assert (H0 : (0 <= Zfloor (random * 20))%Z) by (apply Zfloor_lub; lra).
  assert (H20 : IZR (Zfloor (random * 20)) < 20) by lra.
  apply lt_IZR in H20. lia.
Qed.

Lemma assessment_completion_score_range_witness :
  exists z : Z,
    Assessment.completionScore 0.5 = IZR z /\ (75 <= z <= 94)%Z.
Proof.
  apply (assessment_completion_score_range 0.5). lra.
Defined.


(** ** Pausing *)

(** X25. A session that is not playing is frozen: animation frames, timer
    ticks and scoring ticks leave it exactly as it is.  Pausing a playing
    session and resuming it gives back the very same state. *)
Theorem paused_session_is_frozen :
  forall (props : Props) (s : State),
    (isPlaying s = false ->
     forall e : Event, isClockEvent e = true -> step props s e = s)
    /\ (isPlaying s = true -> isFinished s = false ->
        sessionBlinks s = blinkCount (tracker s) ->
        togglePlay props (togglePlay props s) = s).
Proof.
  intros props s. split.
  - intros Hp e He.
    destruct e as [cam rnd time | | rx ry | | | p]; try discriminate; simpl.
    + unfold animationFrame. now rewrite Hp.
    + unfold timerTick. now rewrite Hp.
    + unfold gameLoop. now rewrite Hp.
  - intros Hp Hf Hsync. destruct s. simpl in *. subst.
    unfold togglePlay, syncBlinks. simpl. reflexivity.
Qed.

Lemma paused_session_is_frozen_witness :
  step (mkProps REAL FOLLOW_DOT 60 HEALTHY)
    (initialState (mkProps REAL FOLLOW_DOT 60 HEALTHY)) (GameTick 0.3 0.6)
  = initialState (mkProps REAL FOLLOW_DOT 60 HEALTHY).
Proof.
  exact (proj1 (paused_session_is_frozen
                  (mkProps REAL FOLLOW_DOT 60 HEALTHY)
                  (initialState (mkProps REAL FOLLOW_DOT 60 HEALTHY)))
           eq_refl (GameTick 0.3 0.6) eq_refl).
Defined.

(** ** Raw measurements of the detector path *)

Section RawMeasurements.

Lemma blendshapeScore_lacking (cs : list Category) (name : string) :
  lacks cs name -> blendshapeScore (Some cs) name = 0.
Proof.
  intro Hlack. unfold blendshapeScore.
  destruct (find (fun c => String.eqb (categoryName c) name) cs) as [c |]
    eqn:Hfind; [| reflexivity].
  apply find_some in Hfind. destruct Hfind as [Hin Heq].
  apply String.eqb_eq in Heq. exfalso. exact (Hlack c Hin Heq).
Qed.

Lemma isBlinking_zero : isBlinking 0 0 = false.
Proof.
  unfold isBlinking. rewrite (gtb_false ((0 + 0) / 2) 0.5) by lra.
  rewrite (gtb_false ((0 + 0) / 2) 0.2) by lra. reflexivity.
Qed.

End RawMeasurements.


(** X27. When the detector returns a face without blendshapes, or with a
    category list naming neither eye's blink, both eyes are reported
    fully open and no blink is detected. *)
Theorem missing_blendshapes_mean_open_eyes :
  forall (prev : FaceData) (landmarks : FaceMesh)
         (blendshapes : option (list Category)),
    match blendshapes with
    | None => True
    | Some cs => lacks cs "eyeBlinkLeft" /\ lacks cs "eyeBlinkRight"
    end ->
    let f := faceFound prev landmarks blendshapes in
    eyeOpennessLeft f = 1 /\ eyeOpennessRight f = 1
    /\ blinkDetected f = false.
Proof.
  intros prev landmarks blendshapes Hlack f. subst f. simpl.
  assert (Hl : blendshapeScore blendshapes "eyeBlinkLeft" = 0).
  { destruct blendshapes as [cs |]; [| reflexivity].
    now apply blendshapeScore_lacking. }
  assert (Hr : blendshapeScore blendshapes "eyeBlinkRight" = 0).
  { destruct blendshapes as [cs |]; [| reflexivity].
    now apply blendshapeScore_lacking. }
  rewrite Hl, Hr. repeat split; try lra. apply isBlinking_zero.
Qed.

Lemma missing_blendshapes_mean_open_eyes_witness :
  blinkDetected
    (faceFound DEFAULT_FACE_DATA (meshWithNose (mkPoint 0.75 0.5)) None)
  = false.
Proof.
  apply (missing_blendshapes_mean_open_eyes DEFAULT_FACE_DATA
           (meshWithNose (mkPoint 0.75 0.5)) None).
  exact I.
Defined.

(** ** The first frame of a camera session *)

Section FirstFrame.

Lemma sameSignal_trans (f g h : FaceData) :
  sameSignal f g -> sameSignal g h -> sameSignal f h.
Proof.
  unfold sameSignal.
  intros (A1 & A2 & A3 & A4 & A5 & A6 & A7 & A8 & A9 & A10)
         (B1 & B2 & B3 & B4 & B5 & B6 & B7 & B8 & B9 & B10).
  repeat split; congruence.
Qed.

(** Without an available face the adapter passes the measurements of the
    previous frame on. *)
Lemma processFrame_without_face (cam : Camera) (t : Tracker) :
  noFaceAvailable cam ->
  sameSignal (fst (processFrame cam t)) (prevDataRef t).
Proof.
  intro Hno. unfold processFrame.
  destruct (faceLandmarker cam) eqn:Hm; [| repeat split].
  destruct (videoRef cam) as [video |] eqn:Hv; [| repeat split].
  destruct (Z.ltb_spec (readyState video) 2) as [Hr | Hr]; [repeat split |].
  destruct (Req_dec_T (currentTime video) (lastVideoTime t));
    [repeat split |].
  destruct Hno as [H | [H | [(v & H & Hlow) | [H | (results & H & Hnone)]]]].
  - congruence.
  - congruence.
  - rewrite Hv in H. injection H as <-. lia.
  - rewrite H. repeat split.
  - rewrite H, Hnone. repeat split.
Qed.

(** The measurements a camera session starts from survive every tick on
    which no face is available. *)
Lemma run_without_face (demoProfile : DemoProfile) (ticks : list Tick) :
  forall t : Tracker,
    Forall (fun k => noFaceAvailable (tickCamera k)) ticks ->
    sameSignal (prevDataRef t) DEFAULT_FACE_DATA ->
    sameSignal
      (prevDataRef (fold_left (loopTick REAL demoProfile) ticks t))
      DEFAULT_FACE_DATA.
Proof.
  induction ticks as [| k ks IH]; intros t Hall Hprev; [exact Hprev |].
  inversion Hall as [| k' ks' Hk Hks]; subst k' ks'.
  cbn [fold_left]. apply IH; [exact Hks |].
  unfold loopTick, loop.
  destruct (JS.ltb (tickTime k - lastProcessTimeRef t) 32); [exact Hprev |].
  pose proof (processFrame_without_face (tickCamera k)
                (set_lastProcessTime t (tickTime k)) Hk) as Hsame.
  destruct (processFrame (tickCamera k) (set_lastProcessTime t (tickTime k)))
    as [data t2].
  cbn [deliver prevDataRef]. cbn [fst set_lastProcessTime prevDataRef] in Hsame.
  now apply (sameSignal_trans _ (prevDataRef t)).
Qed.

End FirstFrame.

(** C5, amended. A tracker that has run on the camera path only, through
    any number of ticks on which no face was available (model or video
    not ready, detector failure, no face in the image), still holds the
    default measurements; on the first frame it then builds from a found
    face every eye-landmark point is the raw point of the mesh, while
    yaw, pitch, gazeX and gazeY are interpolated from the default frame's
    zeros: each is half its raw value.  More generally the eye landmarks
    are passed through unsmoothed whenever the previous frame carries
    none. *)
Theorem first_frame_smoothing :
  forall (demoProfile : DemoProfile) (ticks : list Tick) (cam : Camera)
         (rnd : Draws) (time : R) (video : Video) (results : Results)
         (landmarks : FaceMesh) (others : list FaceMesh),
    Forall (fun k => noFaceAvailable (tickCamera k)) ticks ->
    let t := fold_left (loopTick REAL demoProfile) ticks initialTracker in
    faceLandmarker cam = true ->
    videoRef cam = Some video ->
    (2 <= readyState video)%Z ->
    currentTime video <> lastVideoTime t ->
    detectForVideo cam = Returns results ->
    faceLandmarks results = landmarks :: others ->
    32 <= time - lastProcessTimeRef t ->
    let f := faceData (loop REAL demoProfile cam rnd time t) in
    sameSignal (prevDataRef t) DEFAULT_FACE_DATA
    /\ leftEye f = Some (rawLeftEye landmarks)
    /\ rightEye f = Some (rawRightEye landmarks)
    /\ yaw f = rawYaw landmarks * 0.5
    /\ pitch f = rawPitch landmarks * 0.5
    /\ gazeX f = rawGazeX landmarks * 0.5
    /\ gazeY f = rawGazeY landmarks * 0.5
    /\ (forall (prev : FaceData) (blendshapes : option (list Category)),
          leftEye prev = None -> rightEye prev = None ->
          leftEye (faceFound prev landmarks blendshapes)
          = Some (rawLeftEye landmarks)
          /\ rightEye (faceFound prev landmarks blendshapes)
             = Some (rawRightEye landmarks)).
Proof.
  intros demoProfile ticks cam rnd time video results landmarks others
         Hall t Hm Hv Hr Ha Hd Hf Hgap f.
  assert (Hprev : sameSignal (prevDataRef t) DEFAULT_FACE_DATA).
  { subst t. apply run_without_face; [exact Hall | repeat split]. }
  split; [exact Hprev |].
  subst f. rewrite (loop_real_processed demoProfile cam rnd time t Hgap).
  rewrite (processFrame_face cam (set_lastProcessTime t time) video results
             Hm Hv Hr Ha Hd _ _ Hf).
  cbn [fst snd deliver faceData set_lastProcessTime prevDataRef].
  destruct Hprev as (Hyaw & Hpitch & _ & _ & _ & _ & Hgx & Hgy & Hle & Hre).
  unfold faceFound, lerp, POSE_SMOOTHING.
  cbn [leftEye rightEye yaw pitch gazeX gazeY].
  rewrite Hyaw, Hpitch, Hgx, Hgy, Hle, Hre. simpl.
  do 2 (split; [reflexivity |]). do 4 (split; [lra |]).
  intros prev blendshapes Hl Hr'. rewrite Hl, Hr'. split; reflexivity.
Qed.

(** A camera session whose first image shows no face and whose second
    shows a face with the nose at x = 0.75. *)
Lemma first_frame_smoothing_witness :
  yaw (faceData
         (loop REAL HEALTHY
            (readyCamera 0.04 (oneFace (meshWithNose (mkPoint 0.75 0.5))))
            evenDraws 200
            (fold_left (loopTick REAL HEALTHY)
               [mkTick (readyCamera 0 noFace) evenDraws 100]
               initialTracker)))
  = rawYaw (meshWithNose (mkPoint 0.75 0.5)) * 0.5.
Proof.
  assert (Ht : lastVideoTime
                 (fold_left (loopTick REAL HEALTHY)
                    [mkTick (readyCamera 0 noFace) evenDraws 100]
                    initialTracker) = 0
               /\ lastProcessTimeRef
                    (fold_left (loopTick REAL HEALTHY)
                       [mkTick (readyCamera 0 noFace) evenDraws 100]
                       initialTracker) = 100).
  { change (fold_left (loopTick REAL HEALTHY)
              [mkTick (readyCamera 0 noFace) evenDraws 100] initialTracker)
      with (loop REAL HEALTHY (readyCamera 0 noFace) evenDraws 100
              initialTracker).
    rewrite loop_real_processed by (simpl; lra).
    rewrite (processFrame_no_face (readyCamera 0 noFace)
               (set_lastProcessTime initialTracker 100)
               {| readyState := 4; currentTime := 0 |} noFace
               eq_refl eq_refl ltac:(simpl; lia) ltac:(simpl; lra) eq_refl
               eq_refl).
    split; reflexivity. }
  destruct Ht as [Hvideo Hprocess].
  destruct (first_frame_smoothing HEALTHY
              [mkTick (readyCamera 0 noFace) evenDraws 100]
              (readyCamera 0.04 (oneFace (meshWithNose (mkPoint 0.75 0.5))))
              evenDraws 200 {| readyState := 4; currentTime := 0.04 |}
              (oneFace (meshWithNose (mkPoint 0.75 0.5)))
              (meshWithNose (mkPoint 0.75 0.5)) [])
    as (_ & _ & _ & Hyaw & _); try reflexivity.
  - constructor; [| constructor].
    right. right. right. right. exists noFace. split; reflexivity.
  - simpl. lia.
  - rewrite Hvideo. simpl. lra.
  - rewrite Hprocess. lra.
  - exact Hyaw.
Defined.

(** ** The report in binary64 *)

Section Binary64Report.

Lemma allFrom_each (check : Z -> bool) (count : nat) :
  forall start : Z,
    allFrom check start count = true ->
    forall z : Z,
      (start <= z < start + Z.of_nat count)%Z -> check z = true.
Proof.
  induction count as [| k IH]; intros start Hall z Hrange; [lia |].
  cbn [allFrom] in Hall. apply andb_prop in Hall.
  destruct Hall as [Hhere Hrest].
  destruct (Z.eq_dec z start) as [-> | Hne]; [exact Hhere |].
  apply (IH (start + 1)%Z Hrest). lia.
Qed.

(** [Math.round] of an exact quotient of integers. *)
Lemma Math_round_quotient (a b : Z) :
  (0 < b)%Z ->
  JS.Math_round (IZR a / IZR b) = IZR ((2 * a + b) / (2 * b)).
Proof.
  intro Hb. apply Math_round_eq.
  pose proof (Z.div_mod (2 * a + b) (2 * b) ltac:(lia)) as Hdm.
  pose proof (Z.mod_pos_bound (2 * a + b) (2 * b) ltac:(lia)) as [Hr0 Hr1].
  set (q := ((2 * a + b) / (2 * b))%Z) in *.
  set (r := ((2 * a + b) mod (2 * b))%Z) in *.
  assert (Ha : 2 * IZR a + IZR b = 2 * IZR b * IZR q + IZR r).
  { rewrite <- !mult_IZR, <- !plus_IZR. now f_equal. }
  apply IZR_le in Hr0. apply IZR_lt in Hr1. rewrite mult_IZR in Hr1.
  assert (Hbpos : 0 < IZR b) by now apply IZR_lt.
  assert (E : IZR a / IZR b = IZR q - / 2 + IZR r / (2 * IZR b))
    by (field_simplify_eq; lra).
  assert (Hfrac : 0 <= IZR r / (2 * IZR b) < 1).
  { split.
    - apply Rmult_le_pos; [lra |]. left. apply Rinv_0_lt_compat. lra.
    - apply (Rmult_lt_reg_r (2 * IZR b)); [lra |].
      unfold Rdiv. rewrite Rmult_assoc, Rinv_l by lra. lra. }
  lra.
Qed.

(** An exact quotient of integers that is a tie of [Math.round]. *)
Lemma quotient_tie (a b : Z) :
  (0 < b)%Z ->
  ((2 * a + b) mod (2 * b) = 0)%Z ->
  IZR a / IZR b = IZR ((2 * a + b) / (2 * b) - 1) + / 2.
Proof.
  intros Hb Hmod.
  pose proof (Z.div_mod (2 * a + b) (2 * b) ltac:(lia)) as Hdm.
  rewrite Hmod, Z.add_0_r in Hdm.
  set (q := ((2 * a + b) / (2 * b))%Z) in *.
  assert (Ha : 2 * IZR a + IZR b = 2 * IZR b * IZR q).
  { rewrite <- !mult_IZR, <- !plus_IZR. now f_equal. }
  assert (Hbpos : 0 < IZR b) by now apply IZR_lt.
  rewrite minus_IZR. field_simplify_eq; lra.
Qed.

Lemma bpm_checked :
  allFrom (fun elapsed => allFrom (bpmAgrees elapsed) 0 31) 1 200 = true.
Proof. vm_compute. reflexivity. Qed.

Lemma accuracy_checked :
  allFrom (accuracyAgrees 60) 0 1001 = true.
Proof. vm_compute. reflexivity. Qed.

End Binary64Report.

(** X29. The blink rate as the report computes it in binary64: for every
    finished session of 1 to 200 seconds with up to 30 blinks the value
    shown is an integer, and it is the exact quotient 60 * blinks /
    elapsed rounded by [Math.round], unless that quotient lies exactly
    halfway between two integers and the report shows the integer below.
    This happens: 23 blinks in 184 seconds are 7.5 per minute, which the
    report shows as 7 where exact rounding gives 8. *)
Theorem binary64_blink_rate :
  (forall elapsed blinks : Z,
      (1 <= elapsed <= 200)%Z -> (0 <= blinks <= 30)%Z ->
      exists bpm : Z,
        Binary64.toZ (Binary64.bpm elapsed 0 blinks) = Some bpm
        /\ (IZR bpm = JS.Math_round (IZR blinks * 60 / IZR elapsed)
            \/ IZR blinks * 60 / IZR elapsed = IZR bpm + / 2))
  /\ Binary64.toZ (Binary64.bpm 184 0 23) = Some 7%Z
  /\ JS.Math_round (23 * 60 / 184) = 8.
Proof.
  split; [| split].
  - intros elapsed blinks He Hb.
    assert (Hcheck : bpmAgrees elapsed blinks = true).
    { apply (allFrom_each (bpmAgrees elapsed) 31 0); [| lia].
      apply (allFrom_each (fun e => allFrom (bpmAgrees e) 0 31) 200 1);
        [exact bpm_checked | lia]. }
    unfold bpmAgrees in Hcheck.
    destruct (Binary64.toZ (Binary64.bpm elapsed 0 blinks)) as [v |];
      [| discriminate].
    exists v. split; [reflexivity |].
    assert (Hq : IZR blinks * 60 / IZR elapsed
                 = IZR (60 * blinks) / IZR elapsed)
      by (rewrite mult_IZR; lra).
    assert (Hnum : (2 * (60 * blinks) + elapsed = 120 * blinks + elapsed)%Z)
      by lia.
    rewrite Hq. cbv zeta in Hcheck.
    apply orb_prop in Hcheck. destruct Hcheck as [Hsame | Htie].
    + left. apply Z.eqb_eq in Hsame. subst v.
      rewrite Math_round_quotient by lia. now rewrite Hnum.
    + right. apply andb_prop in Htie. destruct Htie as [Hv Hmod].
      apply Z.eqb_eq in Hv. apply Z.eqb_eq in Hmod. subst v.
      rewrite <- Hnum in *. apply quotient_tie; [lia | exact Hmod].
  - vm_compute. reflexivity.
  - apply (Math_round_eq 8). lra.
Qed.

(** X30. The gaze accuracy as the report computes it in binary64, for the
    60-second sessions the application runs and every score up to 1000:
    the value shown is an integer, and it is min(100, round(score /
    (elapsed * 10) * 100)) with the exact ratio, unless the ratio lies
    exactly halfway between two integers and the report shows the integer
    below.  This happens: 87 points give 14.5 per cent, which the report
    shows as 14 where exact rounding gives 15; 450 points after 45
    seconds are shown as 100. *)
Theorem binary64_gaze_accuracy :
  (forall score : Z,
      (0 <= score <= 1000)%Z ->
      exists accuracy : Z,
        Binary64.toZ (Binary64.efficiency 60 0 score) = Some accuracy
        /\ (IZR accuracy = gazeAccuracy score 60
            \/ IZR score / (IZR 60 * 10) * 100 = IZR accuracy + / 2))
  /\ Binary64.toZ (Binary64.efficiency 60 0 87) = Some 14%Z
  /\ gazeAccuracy 87 60 = 15
  /\ Binary64.toZ (Binary64.efficiency 45 0 450) = Some 100%Z.
Proof.
  split; [| split; [| split]].
  - intros score Hs.
    assert (Hcheck : accuracyAgrees 60 score = true).
    { apply (allFrom_each (accuracyAgrees 60) 1001 0);
        [exact accuracy_checked | lia]. }
    unfold accuracyAgrees in Hcheck.
    destruct (Binary64.toZ (Binary64.efficiency 60 0 score)) as [v |];
      [| discriminate].
    exists v. split; [reflexivity |].
    assert (Hq : IZR score / (IZR 60 * 10) * 100
                 = IZR (10 * score) / IZR 60)
      by (rewrite mult_IZR; lra).
    assert (Hnum : (2 * (10 * score) + 60 = 20 * score + 60)%Z) by lia.
    unfold gazeAccuracy. rewrite Hq. cbv zeta in Hcheck.
    apply orb_prop in Hcheck. destruct Hcheck as [Hsame | Htie].
    + left. apply Z.eqb_eq in Hsame. subst v.
      rewrite Math_round_quotient by lia. rewrite Hnum.
      symmetry. apply (Rmin_IZR 100).
    + right. apply andb_prop in Htie. destruct Htie as [Hv Hmod].
      apply Z.eqb_eq in Hv. apply Z.eqb_eq in Hmod. subst v.
      rewrite <- Hnum in *. apply quotient_tie; [lia | exact Hmod].
  - vm_compute. reflexivity.
  - unfold gazeAccuracy. rewrite (Math_round_eq 15) by lra.
    apply Rmin_right. lra.
  - vm_compute. reflexivity.
Qed.
